(** * The LM Studio webhook relay ([app.py]): model and properties

    The relay receives a chat notification, forwards its text together
    with a short per-sender history to an inference backend and answers
    with the generated reply.  This file embeds the functions of
    [app.py] and proves the properties of the relay's specification
    about them.

    Conventions of the embedding:
    - a Python [str] is a [string], read as a sequence of code points
      below 256;
    - a parsed JSON value (and Python's [None], which is what [null]
      parses to and what [dict.get] answers for an absent key) is a
      [json]; numbers are integers, the only thing the relay does with
      a number is to test it for truth or compare it with another key;
    - a [dict] is an association list looked up from the front;
    - the outbound HTTP traffic is a log of [call]s, answered by a
      [backend] that may depend on everything sent so far;
    - a function that can raise, or that touches the conversation
      store or the network, lives in the monad [M]: a state
      transformer over [world] whose result is a value or an
      exception.  State written before an exception stays written,
      as in Python. *)

From Stdlib Require Import String Ascii List ZArith NArith Bool Lia.
From Stdlib Require Import DecimalString.
Import ListNotations.
Open Scope string_scope.
Open Scope list_scope.

(** ** Python primitives *)

Module Py.

(** [str.isspace] on the code points below 256. *)
Definition is_space (c : ascii) : bool :=
  let n := N_of_ascii c in
  ((9 <=? n) && (n <=? 13) || (28 <=? n) && (n <=? 32)
   || (n =? 133) || (n =? 160))%N.

Fixpoint lstrip (s : string) : string :=
  match s with
  | EmptyString => EmptyString
  | String c r => if is_space c then lstrip r else s
  end.

Fixpoint rstrip (s : string) : string :=
  match s with
  | EmptyString => EmptyString
  | String c r =>
      match rstrip r with
      | EmptyString => if is_space c then EmptyString else String c EmptyString
      | r' => String c r'
      end
  end.

(** [s.strip()] *)
Definition strip (s : string) : string := rstrip (lstrip s).

(** [str.lower] on one code point below 256. *)
Definition lower_char (c : ascii) : ascii :=
  let n := N_of_ascii c in
  if ((65 <=? n) && (n <=? 90)
      || (192 <=? n) && (n <=? 222) && negb (n =? 215))%N
  then ascii_of_N (n + 32) else c.

Fixpoint lower (s : string) : string :=
  match s with
  | EmptyString => EmptyString
  | String c r => String (lower_char c) (lower r)
  end.

Definition nonempty (s : string) : bool :=
  match s with EmptyString => false | _ => true end.

(** [sep.join(parts)] *)
Fixpoint join (sep : string) (parts : list string) : string :=
  match parts with
  | [] => ""
  | [p] => p
  | p :: rest => (p ++ sep ++ join sep rest)%string
  end.

(** [l[-n:]] for a positive [n]. *)
Definition last_n {A} (n : nat) (l : list A) : list A :=
  skipn (length l - n) l.

Definition newline : string := String (ascii_of_N 10) EmptyString.

End Py.

(** ** JSON values *)

#[local] Set Warnings "-register-all".

Inductive json : Type :=
| JNull
| JBool (b : bool)
| JNum (n : Z)
| JStr (s : string)
| JArr (items : list json)
| JObj (fields : list (string * json)).

(** Python truth value, as tested by [or], [not] and [if]. *)
Definition truthy (j : json) : bool :=
  match j with
  | JNull => false
  | JBool b => b
  | JNum n => negb (n =? 0)%Z
  | JStr s => Py.nonempty s
  | JArr l => match l with [] => false | _ => true end
  | JObj kv => match kv with [] => false | _ => true end
  end.

(** [a or b] *)
Definition py_or (a b : json) : json := if truthy a then a else b.

(** [d.get(k)] on a dict: [None] when the key is absent. *)
Fixpoint dict_get (d : list (string * json)) (k : string) : json :=
  match d with
  | [] => JNull
  | (k', v) :: r => if String.eqb k' k then v else dict_get r k
  end.

(** [d.get(k, default)] *)
Fixpoint dict_get_default (d : list (string * json)) (k : string)
    (default : json) : json :=
  match d with
  | [] => default
  | (k', v) :: r => if String.eqb k' k then v else dict_get_default r k default
  end.

(** Only lists and dicts among the parsed values are unhashable. *)
Definition hashable (j : json) : bool :=
  match j with
  | JArr _ | JObj _ => false
  | _ => true
  end.

(** Equality of two hashable values as dict keys ([==] with equal
    hash): [True == 1] and [False == 0], a string equals only a
    string. *)
Definition key_eqb (a b : json) : bool :=
  match a, b with
  | JNull, JNull => true
  | JStr s, JStr t => String.eqb s t
  | JNum n, JNum m => (n =? m)%Z
  | JBool x, JBool y => Bool.eqb x y
  | JBool x, JNum n => (n =? (if x then 1 else 0))%Z
  | JNum n, JBool x => (n =? (if x then 1 else 0))%Z
  | _, _ => false
  end.

(** ** Exceptions and the effect monad *)

Inductive exn : Type :=
| ConnectionError      (* requests: refused, timed out *)
| HTTPError            (* raise_for_status *)
| JSONDecodeError      (* resp.json() *)
| AttributeError       (* .get on something that is not a dict *)
| TypeError.           (* unhashable key, iteration over a non-iterable *)

Inductive res (A : Type) : Type :=
| Ok (a : A)
| Raise (e : exn).
Arguments Ok {A} a.
Arguments Raise {A} e.

(** A chat message, [Dict[str, str]]. *)
Definition message : Type := list (string * string).

Fixpoint msg_get (m : message) (k : string) : option string :=
  match m with
  | [] => None
  | (k', v) :: r => if String.eqb k' k then Some v else msg_get r k
  end.

(** [{"role": r, "content": c}] *)
Definition turn (r c : string) : message := [("role", r); ("content", c)].

(** Outbound requests; temperature, max_tokens, stream and the
    timeouts are constants of the configuration and are left out. *)
Inductive call : Type :=
| GetModels
| PostChat (model : json) (messages : list message)
| PostCompletions (model : json) (prompt : string).

(** What comes back: nothing (transport failure), or a status and a
    body that may or may not be JSON. *)
Inductive http_result : Type :=
| NoResponse
| Response (status : Z) (body : option json).

(** The backend answers a call knowing every call made before it. *)
Definition backend_t : Type := list call -> call -> http_result.

(** [conversations]: sender key to the list of turns. *)
Definition store : Type := list (json * list message).

Record world : Type := mkWorld {
  conversations : store;
  calls : list call
}.

Definition M (A : Type) : Type := world -> res A * world.

Definition ret {A} (a : A) : M A := fun w => (Ok a, w).

Definition raise {A} (e : exn) : M A := fun w => (Raise e, w).

Definition bind {A B} (c : M A) (k : A -> M B) : M B :=
  fun w =>
    match c w with
    | (Ok a, w') => k a w'
    | (Raise e, w') => (Raise e, w')
    end.

(** [try: c  except Exception as e: h e] *)
Definition try_catch {A} (c : M A) (h : exn -> M A) : M A :=
  fun w =>
    match c w with
    | (Ok a, w') => (Ok a, w')
    | (Raise e, w') => h e w'
    end.

Declare Scope relay_scope.
Delimit Scope relay_scope with relay.
Notation "x <- c ;; k" := (bind c (fun x => k))
  (at level 61, c at next level, right associativity) : relay_scope.
Notation "c ;;; k" := (bind c (fun _ => k))
  (at level 61, right associativity) : relay_scope.
Open Scope relay_scope.

(** ** The conversation store *)

Fixpoint store_lookup (k : json) (st : store) : option (list message) :=
  match st with
  | [] => None
  | (k', v) :: r => if key_eqb k' k then Some v else store_lookup k r
  end.

(** [conversations.get(k, [])] on a hashable key. *)
Definition store_history (k : json) (st : store) : list message :=
  match store_lookup k st with
  | Some v => v
  | None => []
  end.

(** [conversations.setdefault(k, [])]: the entry is created when
    absent; the list it answers is the stored object itself. *)
Definition store_setdefault (k : json) (st : store) : store :=
  match store_lookup k st with
  | Some _ => st
  | None => st ++ [(k, [])]
  end.

(** [conv.append(m)] where [conv] is the list stored under [k]. *)
Fixpoint store_append (k : json) (m : message) (st : store) : store :=
  match st with
  | [] => []
  | (k', v) :: r =>
      if key_eqb k' k then (k', v ++ [m]) :: r
      else (k', v) :: store_append k m r
  end.

(** ** Pure helpers of [app.py] *)

Definition candidates : list string :=
  ["text"; "message"; "body"; "MESSAGE"; "MESSAGE-TEXT"; "message-text";
   "content"].

(** The loop [for k in candidates: v = d.get(k); if isinstance(v, str)
    and v.strip(): return v]; [None] when it runs to its end. *)
Fixpoint probe (d : list (string * json)) (ks : list string)
    : option string :=
  match ks with
  | [] => None
  | k :: rest =>
      match dict_get d k with
      | JStr v => if Py.nonempty (Py.strip v) then Some v else probe d rest
      | _ => probe d rest
      end
  end.

(** The loop over the wrapper keys. *)
Fixpoint probe_wrappers (payload : list (string * json))
    (ws : list string) : option string :=
  match ws with
  | [] => None
  | w :: rest =>
      match dict_get payload w with
      | JObj inner =>
          match probe inner candidates with
          | Some v => Some v
          | None => probe_wrappers payload rest
          end
      | _ => probe_wrappers payload rest
      end
  end.

Definition _extract_message_text (payload : list (string * json)) : string :=
  match probe payload candidates with
  | Some v => v
  | None =>
      match probe_wrappers payload ["data"; "payload"] with
      | Some v => v
      | None => ""
      end
  end.

(** [x.get(k)] where [x] may be anything: only a dict has [get]. *)
Definition obj_get (x : json) (k : string) : res json :=
  match x with
  | JObj d => Ok (dict_get d k)
  | _ => Raise AttributeError
  end.

(** [ch0["text"].strip()] when [ch0] is a dict whose ["text"] is a
    string (the completions shape). *)
Definition completion_text (ch0 : json) : option string :=
  match ch0 with
  | JObj c =>
      match dict_get c "text" with
      | JStr s => Some (Py.strip s)
      | _ => None
      end
  | _ => None
  end.

(** The two tests made on the first choice, chat shape first. *)
Definition choice_text (ch0 : json) : option string :=
  let msg := match ch0 with
             | JObj c => dict_get c "message"
             | _ => JNull
             end in
  match msg with
  | JObj md =>
      match dict_get md "content" with
      | JStr s => Some (Py.strip s)
      | _ => completion_text ch0
      end
  | _ => completion_text ch0
  end.

(** The body of the [try] of [_extract_ai_text]; [Ok None] is the
    fall-through to the final [return ""]. *)
Definition _extract_ai_text_try (result : json) : res (option string) :=
  match obj_get result "choices" with
  | Raise e => Raise e
  | Ok choices =>
      let from_choices : option string :=
        match choices with
        | JArr (ch0 :: _) => choice_text ch0
        | _ => None
        end in
      match from_choices with
      | Some s => Ok (Some s)
      | None =>
          match obj_get result "content" with
          | Raise e => Raise e
          | Ok (JStr s) => Ok (Some (Py.strip s))
          | Ok _ => Ok None
          end
      end
  end.

Definition _extract_ai_text (result : json) : string :=
  match _extract_ai_text_try result with
  | Ok (Some s) => s
  | Ok None => ""
  | Raise _ => ""
  end.

(** One turn of [_messages_to_prompt]: the line it adds, if any. *)
Definition render_turn (m : message) : option string :=
  let role := msg_get m "role" in
  let content :=
    Py.strip (match msg_get m "content" with
              | Some c => c
              | None => ""
              end) in
  if Py.nonempty content then
    match role with
    | Some "user" => Some ("User: " ++ content)%string
    | Some "assistant" => Some ("Assistant: " ++ content)%string
    | _ => Some content
    end
  else None.

Fixpoint render_turns (ms : list message) : list string :=
  match ms with
  | [] => []
  | m :: rest =>
      match render_turn m with
      | Some line => line :: render_turns rest
      | None => render_turns rest
      end
  end.

Definition _messages_to_prompt (messages : list message) : string :=
  let parts := render_turns (Py.last_n 8 messages) in
  Py.join Py.newline (parts ++ ["Assistant:"]).

(** ** The relay, over a configuration and a backend *)

Record config : Type := mkConfig {
  LM_STUDIO_MODEL : string;
  ALLOWED_JIDS : list string
}.

(** An inbound POST: what [request.get_json(silent=True)] answers
    ([None] when the body is not JSON) and the form fields. *)
Record request : Type := mkRequest {
  get_json : option json;
  form : list (string * string)
}.

(** A Flask response: the JSON body and the status. *)
Definition response : Type := (json * Z)%type.

(** [jsonify({"message": s})], status 200. *)
Definition jsonify_message (s : string) : response :=
  (JObj [("message", JStr s)], 200%Z).

(** What a response amounts to for the caller of an inference
    endpoint: text, parsed but without text, or an exception
    (transport, status, body that is not JSON). *)
Inductive outcome : Type :=
| Text (s : string)
| EmptyText
| Raised.

(** The statuses on which [raise_for_status] raises. *)
Definition status_error (st : Z) : bool := ((400 <=? st) && (st <? 600))%Z.

Definition classify (r : http_result) : outcome :=
  match r with
  | NoResponse => Raised
  | Response st body =>
      if status_error st then Raised
      else match body with
           | None => Raised
           | Some j =>
               let t := _extract_ai_text j in
               if Py.nonempty t then Text t else EmptyText
           end
  end.

(** The world after one more outbound call. *)
Definition sent (w : world) (cs : list call) : world :=
  mkWorld (conversations w) (calls w ++ cs).

Section Relay.

Variable cfg : config.
Variable backend : backend_t.

(** [requests.get] / [requests.post]: the call is logged, a transport
    failure raises. *)
Definition requests_send (c : call) : M (Z * option json) :=
  fun w =>
    let w' := mkWorld (conversations w) (calls w ++ [c]) in
    match backend (calls w) c with
    | NoResponse => (Raise ConnectionError, w')
    | Response st body => (Ok (st, body), w')
    end.

(** [resp.raise_for_status()] *)
Definition raise_for_status (st : Z) : M unit :=
  if status_error st then raise HTTPError else ret tt.

(** [resp.json()] *)
Definition resp_json (body : option json) : M json :=
  match body with
  | Some j => ret j
  | None => raise JSONDecodeError
  end.

Definition lift {A} (r : res A) : M A := fun w => (r, w).

(** [for m in x]: the elements of a list, the characters of a string,
    the keys of a dict; anything else is not iterable. *)
Fixpoint chars (s : string) : list json :=
  match s with
  | EmptyString => []
  | String c r => JStr (String c EmptyString) :: chars r
  end.

Definition py_iter (x : json) : res (list json) :=
  match x with
  | JArr l => Ok l
  | JStr s => Ok (chars s)
  | JObj kv => Ok (map (fun p => JStr (fst p)) kv)
  | _ => Raise TypeError
  end.

(** [[m.get("id") for m in items if isinstance(m, dict)]] *)
Fixpoint model_ids (items : list json) : list json :=
  match items with
  | [] => []
  | JObj m :: rest => dict_get m "id" :: model_ids rest
  | _ :: rest => model_ids rest
  end.

(** [LM_STUDIO_MODEL in ids] *)
Definition str_in (s : string) (ids : list json) : bool :=
  existsb (fun j => match j with JStr t => String.eqb s t | _ => false end)
          ids.

(** The choice made once the ids are known; [None] is the fall-through
    to [return LM_STUDIO_MODEL]. *)
Definition choose_model (ids : list json) : option json :=
  let pref := Py.lower (Py.strip (LM_STUDIO_MODEL cfg)) in
  if (String.eqb pref "" || String.eqb pref "auto" || String.eqb pref "*")%bool
  then match ids with
       | id0 :: _ => Some id0
       | [] => None
       end
  else if str_in (LM_STUDIO_MODEL cfg) ids
       then Some (JStr (LM_STUDIO_MODEL cfg))
       else match ids with
            | id0 :: _ => Some id0
            | [] => None
            end.

Definition get_active_model_try : M (option json) :=
  r <- requests_send GetModels ;;
  raise_for_status (fst r) ;;;
  data <- resp_json (snd r) ;;
  items <- lift (match data with
                 | JObj d => py_iter (dict_get_default d "data" (JArr []))
                 | _ => Raise AttributeError
                 end) ;;
  ret (choose_model (model_ids items)).

Definition get_active_model : M json :=
  r <- try_catch get_active_model_try (fun _ => ret None) ;;
  match r with
  | Some id => ret id
  | None => ret (JStr (LM_STUDIO_MODEL cfg))
  end.

(** One pass of the loop of [_call_lm_studio]: [inl text] is the
    [return ai_text], [inr model_id] goes on to the next pass with
    that model id. *)
Definition chat_attempt (messages : list message) (model_id : json)
    : M (string + json) :=
  try_catch
    (r <- requests_send (PostChat model_id messages) ;;
     raise_for_status (fst r) ;;;
     result <- resp_json (snd r) ;;
     let ai_text := _extract_ai_text result in
     if Py.nonempty ai_text then ret (inl ai_text) else ret (inr model_id))
    (fun _ => m <- get_active_model ;; ret (inr m)).

(** [for attempt in range(n)]; [None] when the loop runs out. *)
Fixpoint chat_loop (n : nat) (messages : list message) (model_id : json)
    : M (option string) :=
  match n with
  | O => ret None
  | S k =>
      r <- chat_attempt messages model_id ;;
      match r with
      | inl ai_text => ret (Some ai_text)
      | inr m => chat_loop k messages m
      end
  end.

Definition completions_fallback (messages : list message) : M string :=
  try_catch
    (let prompt := _messages_to_prompt messages in
     model <- get_active_model ;;
     r <- requests_send (PostCompletions model prompt) ;;
     raise_for_status (fst r) ;;;
     result <- resp_json (snd r) ;;
     ret (_extract_ai_text result))
    (fun _ => ret "").

Definition _call_lm_studio (messages : list message) : M string :=
  model_id <- get_active_model ;;
  r <- chat_loop 2 messages model_id ;;
  match r with
  | Some ai_text => ret ai_text
  | None => completions_fallback messages
  end.

(** [conversations.get(sender_jid, [])]: hashing the key comes first. *)
Definition conversations_get (sender_jid : json) : M (list message) :=
  fun w =>
    if hashable sender_jid
    then (Ok (store_history sender_jid (conversations w)), w)
    else (Raise TypeError, w).

Definition build_messages (sender_name sender_jid : json) (text : string)
    : M (list message) :=
  stored <- conversations_get sender_jid ;;
  ret (Py.last_n 8 stored ++ [turn "user" text]).

(** [sender_jid not in ALLOWED_JIDS] *)
Definition not_in_allowed (sender_jid : json) : M bool :=
  if hashable sender_jid then
    match sender_jid with
    | JStr s => ret (negb (existsb (String.eqb s) (ALLOWED_JIDS cfg)))
    | _ => ret true
    end
  else raise TypeError.

(** [data = request.get_json(silent=True) or {}], then the form when
    that is empty. *)
Definition request_data (req : request) : json :=
  let data := match get_json req with
              | Some j => py_or j (JObj [])
              | None => JObj []
              end in
  let has_form := match form req with [] => false | _ => true end in
  if (negb (truthy data) && has_form)%bool
  then JObj (map (fun p => (fst p, JStr (snd p))) (form req))
  else data.

Definition sender_jid_of (d : list (string * json)) : json :=
  py_or (dict_get d "jid")
    (py_or (dict_get d "wa_id") (py_or (dict_get d "from") (JStr "unknown"))).

Definition sender_name_of (d : list (string * json)) : json :=
  py_or (dict_get d "name")
    (py_or (dict_get d "profile_name")
       (py_or (dict_get d "chat_name") (JStr "User"))).

(** The three statements under "Update memory". *)
Definition update_memory (sender_jid : json) (message_text ai_text : string)
    : M unit :=
  fun w =>
    let st1 := store_setdefault sender_jid (conversations w) in
    let st2 := store_append sender_jid (turn "user" message_text) st1 in
    let st3 := store_append sender_jid (turn "assistant" ai_text) st2 in
    (Ok tt, mkWorld st3 (calls w)).

(** The [try] block of [auto_reply]. *)
Definition auto_reply_try (req : request) : M response :=
  d <- lift (match request_data req with
             | JObj d => Ok d
             | _ => Raise AttributeError
             end) ;;
  let sender_jid := sender_jid_of d in
  let sender_name := sender_name_of d in
  let message_text := _extract_message_text d in
  rejected <- match ALLOWED_JIDS cfg with
              | [] => ret false
              | _ => not_in_allowed sender_jid
              end ;;
  if rejected : bool then ret (jsonify_message "")
  else if negb (Py.nonempty message_text) then ret (jsonify_message "")
  else
    messages <- build_messages sender_name sender_jid message_text ;;
    ai_text <- _call_lm_studio messages ;;
    if negb (Py.nonempty ai_text) then ret (jsonify_message "")
    else
      update_memory sender_jid message_text ai_text ;;;
      ret (jsonify_message ai_text).

(** Both [except] clauses answer the same. *)
Definition auto_reply (req : request) : M response :=
  try_catch (auto_reply_try req) (fun _ => ret (jsonify_message "")).

(** Requests handled one after the other. *)
Fixpoint serve (reqs : list request) (w : world)
    : list (res response) * world :=
  match reqs with
  | [] => ([], w)
  | req :: rest =>
      let '(r, w1) := auto_reply req w in
      let '(rs, w2) := serve rest w1 in
      (r :: rs, w2)
  end.

(** *** Observations on a run *)

(** The value [get_active_model] answers, read off the response to
    the listing call. *)
Definition resolved (r : http_result) : json :=
  match r with
  | Response st (Some (JObj d)) =>
      if status_error st then JStr (LM_STUDIO_MODEL cfg)
      else match py_iter (dict_get_default d "data" (JArr [])) with
           | Ok items =>
               match choose_model (model_ids items) with
               | Some id => id
               | None => JStr (LM_STUDIO_MODEL cfg)
               end
           | Raise _ => JStr (LM_STUDIO_MODEL cfg)
           end
  | _ => JStr (LM_STUDIO_MODEL cfg)
  end.

(** What the fallback answers, by the outcome of its call. *)
Definition fallback_text (o : outcome) : string :=
  match o with
  | Text t => t
  | _ => ""
  end.


(** The outbound calls [new], made after the calls [pre], each with
    the outcome of the backend's response to it. *)
Fixpoint outcomes (pre new : list call) : list (call * outcome) :=
  match new with
  | [] => []
  | c :: rest => (c, classify (backend pre c)) :: outcomes (pre ++ [c]) rest
  end.

Definition is_chat (c : call) : bool :=
  match c with PostChat _ _ => true | _ => false end.

Definition is_completions (c : call) : bool :=
  match c with PostCompletions _ _ => true | _ => false end.

(** The outcomes of the calls to the chat endpoint, in order. *)
Definition chat_outcomes (pre new : list call) : list outcome :=
  map snd (filter (fun p => is_chat (fst p)) (outcomes pre new)).

(** The outcomes of the calls to the completions endpoint. *)
Definition completions_outcomes (pre new : list call) : list outcome :=
  map snd (filter (fun p => is_completions (fst p)) (outcomes pre new)).

(** The store after the three statements under "Update memory". *)
Definition updated (k : json) (text ai : string) (st : store) : store :=
  store_append k (turn "assistant" ai)
    (store_append k (turn "user" text) (store_setdefault k st)).

(** The messages [auto_reply] hands to [_call_lm_studio] for the
    payload [d] in the world [w]. *)
Definition context_of (d : list (string * json)) (w : world) : list message :=
  Py.last_n 8 (store_history (sender_jid_of d) (conversations w))
  ++ [turn "user" (_extract_message_text d)].

(** The allow-list lets the sender through. *)
Definition admitted (sender_jid : json) : bool :=
  match ALLOWED_JIDS cfg with
  | [] => true
  | _ => match sender_jid with
         | JStr s => existsb (String.eqb s) (ALLOWED_JIDS cfg)
         | _ => false
         end
  end.

(** The calls logged between the world [w] and the later world [w']. *)
Definition new_calls (w w' : world) : list call :=
  skipn (length (calls w)) (calls w').

(** The reply carries text. *)
Definition replied (r : res response) : bool :=
  match r with
  | Ok (JObj [(_, JStr s)], _) => Py.nonempty s
  | _ => false
  end.

(** The request comes from the sender stored under [k]. *)
Definition from_sender (k : json) (req : request) : bool :=
  match request_data req with
  | JObj d => key_eqb (sender_jid_of d) k
  | _ => false
  end.

(** How many of the requests came from [k] and were answered with
    text. *)
Fixpoint exchanges (k : json) (reqs : list request)
    (rs : list (res response)) : nat :=
  match reqs, rs with
  | req :: reqs', r :: rs' =>
      (if (from_sender k req && replied r)%bool then 1 else 0)
      + exchanges k reqs' rs'
  | _, _ => 0
  end.

(** The first chat call did not yield text. *)
Definition first_chat_failed (msgs : list message) (w : world) : Prop :=
  match classify (backend (calls w ++ [GetModels])
                    (PostChat (resolved (backend (calls w) GetModels))
                       msgs)) with
  | Text _ => False
  | _ => True
  end.

(** A listing call stands between the first and the second chat
    call. *)
Definition reresolved_before_retry (msgs : list message) (w : world)
    : Prop :=
  exists m0 m1 rest,
    new_calls w (snd (_call_lm_studio msgs w))
    = GetModels :: PostChat m0 msgs :: GetModels :: PostChat m1 msgs :: rest.

(** *** Listings of the model resolver *)

(** The listing [{"data": [{"id": i}, ...]}]. *)
Definition catalog (ids : list string) : json :=
  JObj [("data", JArr (map (fun i => JObj [("id", JStr i)]) ids))].

(** The listing endpoint was not reached (no response, error status)
    or what it sent does not parse as a listing (no JSON, not an
    object, a "data" that cannot be iterated). *)
Definition listing_failed (r : http_result) : bool :=
  match r with
  | NoResponse => true
  | Response st None => true
  | Response st (Some (JObj d)) =>
      (status_error st
       || match dict_get_default d "data" (JArr []) with
          | JArr _ | JStr _ | JObj _ => false
          | _ => true
          end)%bool
  | Response st (Some _) => true
  end.

(** *** The linearization of the specification *)

(** The linearization as the specification words it: a turn whose
    content is not empty is rendered with that content, after the
    label of its role. *)
Definition spec_render_turn (m : message) : option string :=
  let content := match msg_get m "content" with
                 | Some c => c
                 | None => ""
                 end in
  if Py.nonempty content then
    match msg_get m "role" with
    | Some "user" => Some ("User: " ++ content)%string
    | Some "assistant" => Some ("Assistant: " ++ content)%string
    | _ => Some content
    end
  else None.

Fixpoint spec_render_turns (ms : list message) : list string :=
  match ms with
  | [] => []
  | m :: rest =>
      match spec_render_turn m with
      | Some line => line :: spec_render_turns rest
      | None => spec_render_turns rest
      end
  end.

Definition spec_linearize (messages : list message) : string :=
  Py.join Py.newline
    (spec_render_turns (Py.last_n 8 messages) ++ ["Assistant:"]).

(** The message with its content trimmed. *)
Definition trim_content (m : message) : message :=
  map (fun p => if String.eqb (fst p) "content"
                then (fst p, Py.strip (snd p)) else p) m.

(** Every top-level key of the payload is a wrapper key. *)
Definition fully_wrapped (d : list (string * json)) : Prop :=
  forall k v, In (k, v) d -> k = "data" \/ k = "payload".

(** *** Two requests of one sender at the same time

    [app.py] takes no lock.  A request that has its reply still runs
    the three statements under "Update memory", and between any two of
    them another request may run its own.  Each statement is taken as
    one step on the shared store: the list bound to [conv] is the very
    list stored under the sender's key, so an [append] to it is an
    append to the entry.  Steps any finer would only add schedules. *)

Inductive stmt : Type :=
| SetDefault (k : json)
| Append (k : json) (m : message).

Definition exec_stmt (st : store) (s : stmt) : store :=
  match s with
  | SetDefault k => store_setdefault k st
  | Append k m => store_append k m st
  end.

(** The statements under "Update memory" for one exchange. *)
Definition update_stmts (k : json) (text ai : string) : list stmt :=
  [SetDefault k; Append k (turn "user" text); Append k (turn "assistant" ai)].

Definition run_stmts (ss : list stmt) (st : store) : store :=
  fold_left exec_stmt ss st.

(** [interleaving l r m]: the schedule [m] runs the steps of [l] and
    of [r], each in its own order. *)
Inductive interleaving {A : Type} : list A -> list A -> list A -> Prop :=
| il_nil : interleaving [] [] []
| il_left x l r m : interleaving l r m -> interleaving (x :: l) r (x :: m)
| il_right x l r m : interleaving l r m -> interleaving l (x :: r) (x :: m).

(** The turns a list of statements appends. *)
Fixpoint appended (ss : list stmt) : list message :=
  match ss with
  | [] => []
  | SetDefault _ :: rest => appended rest
  | Append _ m :: rest => m :: appended rest
  end.

(** Every statement is on the key [k]. *)
Definition on_key (k : json) (s : stmt) : Prop :=
  match s with
  | SetDefault k' => k' = k
  | Append k' _ => k' = k
  end.

(** The claim of C10: the two exchanges come out one after the other,
    in one order or the other. *)
Definition serialized (k : json) (u1 a1 u2 a2 : string)
    (before after : store) : Prop :=
  store_history k after
  = store_history k before
    ++ [turn "user" u1; turn "assistant" a1;
        turn "user" u2; turn "assistant" a2]
  \/ store_history k after
     = store_history k before
       ++ [turn "user" u2; turn "assistant" a2;
           turn "user" u1; turn "assistant" a1].

(** *** Concrete backends and requests *)

(** A backend that lists [m1, m2] and answers every chat call with
    "hello there". *)
Definition friendly : backend_t :=
  fun _ c =>
    match c with
    | GetModels => Response 200 (Some (catalog ["m1"; "m2"]))
    | PostChat _ _ =>
        Response 200
          (Some (JObj [("choices",
                        JArr [JObj [("message",
                                     JObj [("content", JStr "hello there")])]])]))
    | PostCompletions _ _ => NoResponse
    end.

(** A backend whose chat endpoint answers JSON without any text. *)
Definition mute : backend_t :=
  fun _ c =>
    match c with
    | GetModels => Response 200 (Some (catalog ["m1"; "m2"]))
    | PostChat _ _ => Response 200 (Some (JObj []))
    | PostCompletions _ _ => NoResponse
    end.

(** A backend that cannot be reached. *)
Definition down : backend_t := fun _ _ => NoResponse.

Definition open_cfg : config := mkConfig "auto" [].

Definition fresh : world := mkWorld [] [].

Definition json_request (j : json) : request := mkRequest (Some j) [].

(** [{"jid": "42", "text": "hi"}] *)
Definition hi_payload : list (string * json) :=
  [("jid", JStr "42"); ("text", JStr "hi")].

(** [{"data": {"jid": "42", "text": "hi"}}] *)
Definition wrapped_hi : list (string * json) :=
  [("data", JObj hi_payload)].

(** Five times the same message from the same sender. *)
Definition five_his : list request :=
  repeat (json_request (JObj hi_payload)) 5.

(** *** The allow-list of the environment *)

(** [s.split(",")] *)
Fixpoint split_comma (s : string) : list string :=
  match s with
  | EmptyString => [""]
  | String c r =>
      if Ascii.eqb c "," then "" :: split_comma r
      else match split_comma r with
           | p :: ps => String c p :: ps
           | [] => [String c ""]
           end
  end.

(** The set [{j.strip() for j in env.split(",") if j.strip()}] that
    [ALLOWED_JIDS] is bound to, for the value [env] of the environment
    variable: its elements in the order the pieces come. *)
Definition parse_allowed_jids (env : string) : list string :=
  filter Py.nonempty (map Py.strip (split_comma env)).

Fixpoint has_comma (s : string) : bool :=
  match s with
  | EmptyString => false
  | String c r => (Ascii.eqb c "," || has_comma r)%bool
  end.

(** *** The diagnostic endpoint *)

Record endpoint : Type := mkEndpoint {
  LM_STUDIO_HOST : string;
  LM_STUDIO_PORT : Z
}.

(** [f"http://{LM_STUDIO_HOST}:{LM_STUDIO_PORT}/v1/chat/completions"] *)
Definition LM_STUDIO_URL (ep : endpoint) : string :=
  ("http://" ++ LM_STUDIO_HOST ep ++ ":"
   ++ NilZero.string_of_int (Z.to_int (LM_STUDIO_PORT ep))
   ++ "/v1/chat/completions")%string.

(** The handler of [GET /]. *)
Definition root (ep : endpoint) : M response :=
  active <- get_active_model ;;
  ret (JObj [("status", JStr "ok");
             ("lm_studio_url", JStr (LM_STUDIO_URL ep));
             ("configured_model", JStr (LM_STUDIO_MODEL cfg));
             ("active_model", active)], 200%Z).

(** *** The transcript of a run *)

(** The text [auto_reply] extracts from the request. *)
Definition request_text (req : request) : string :=
  match request_data req with
  | JObj d => _extract_message_text d
  | _ => ""
  end.

(** The text of a reply. *)
Definition reply_text (r : res response) : string :=
  match r with
  | Ok (JObj [(_, JStr s)], _) => s
  | _ => ""
  end.

(** The turns of the requests of [k] that were answered with text. *)
Fixpoint transcript (k : json) (reqs : list request)
    (rs : list (res response)) : list message :=
  match reqs, rs with
  | req :: reqs', r :: rs' =>
      (if (from_sender k req && replied r)%bool
       then [turn "user" (request_text req); turn "assistant" (reply_text r)]
       else [])
      ++ transcript k reqs' rs'
  | _, _ => []
  end.

(** A stored sequence made of exchanges: a user turn whose text is
    not blank, then an assistant turn whose text is trimmed and not
    empty. *)
Inductive paired : list message -> Prop :=
| paired_nil : paired []
| paired_cons u a h :
    Py.nonempty (Py.strip u) = true ->
    Py.nonempty a = true ->
    Py.strip a = a ->
    paired h ->
    paired (turn "user" u :: turn "assistant" a :: h).

Definition store_paired (st : store) : Prop :=
  Forall (fun e => paired (snd e)) st.

(** *** Reading the payload and the listing *)

(** The key [k] of the dict [d] holds a string that is not blank. *)
Definition holds_text (d : list (string * json)) (k : string) : Prop :=
  exists v, dict_get d k = JStr v /\ Py.nonempty (Py.strip v) = true.

(** The preference asks for whatever the backend lists: it is "",
    "auto" or "*" once trimmed and put in lower case. *)
Definition auto_mode (pref : string) : bool :=
  let p := Py.lower (Py.strip pref) in
  (String.eqb p "" || String.eqb p "auto" || String.eqb p "*")%bool.

(** A sender id as the allow-list holds them: not empty, trimmed,
    without a comma. *)
Definition clean_jid (s : string) : Prop :=
  Py.nonempty s = true /\ Py.strip s = s /\ has_comma s = false.

Arguments requests_send c w : simpl never.

(** ** Keys and the store *)

Lemma key_eqb_refl k : hashable k = true -> key_eqb k k = true.
Proof.
  destruct k; simpl; try discriminate; intros _; trivial.
  - apply eqb_reflx.
  - apply Z.eqb_refl.
  - apply String.eqb_refl.
Qed.

Lemma key_eqb_sym a b : key_eqb a b = key_eqb b a.
Proof.
  destruct a, b; simpl; trivial.
  - now destruct b, b0.
  - apply Z.eqb_sym.
  - apply String.eqb_sym.
Qed.

Lemma key_eqb_trans a b c :
  key_eqb a b = true -> key_eqb b c = true -> key_eqb a c = true.
Proof.
  destruct a, b; simpl; try discriminate; destruct c; simpl;
    try discriminate; trivial;
    rewrite ?Z.eqb_eq, ?String.eqb_eq, ?eqb_true_iff; intros; subst; trivial.
  all: repeat match goal with b : bool |- _ => destruct b end;
    try congruence; try lia.
Qed.

Lemma store_lookup_app k st1 st2 :
  store_lookup k (st1 ++ st2) =
  match store_lookup k st1 with
  | Some v => Some v
  | None => store_lookup k st2
  end.
Proof.
  induction st1 as [|[k' v] st1 IH]; simpl; [reflexivity|].
  now destruct (key_eqb k' k).
Qed.

Lemma store_lookup_append_same k m st :
  store_lookup k (store_append k m st) =
  option_map (fun v => v ++ [m]) (store_lookup k st).
Proof.
  induction st as [|[k' v] st IH]; simpl; [reflexivity|].
  destruct (key_eqb k' k) eqn:E; simpl; now rewrite E.
Qed.

Lemma store_lookup_append_other k k' m st :
  key_eqb k k' = false ->
  store_lookup k' (store_append k m st) = store_lookup k' st.
Proof.
  intros Hne. induction st as [|[k0 v] st IH]; simpl; [reflexivity|].
  destruct (key_eqb k0 k) eqn:E; simpl.
  - destruct (key_eqb k0 k') eqn:E'; [|reflexivity].
    rewrite key_eqb_sym in E.
    now rewrite (key_eqb_trans _ _ _ E E') in Hne.
  - now rewrite IH.
Qed.

Lemma store_lookup_setdefault_same k st :
  hashable k = true ->
  store_lookup k (store_setdefault k st) = Some (store_history k st).
Proof.
  intros Hk. unfold store_setdefault, store_history.
  destruct (store_lookup k st) eqn:E; [exact E|].
  rewrite store_lookup_app, E. simpl. now rewrite key_eqb_refl.
Qed.

Lemma store_lookup_setdefault_other k k' st :
  key_eqb k k' = false ->
  store_lookup k' (store_setdefault k st) = store_lookup k' st.
Proof.
  intros Hne. unfold store_setdefault.
  destruct (store_lookup k st); [reflexivity|].
  rewrite store_lookup_app. simpl. rewrite Hne.
  now destruct (store_lookup k' st).
Qed.

Lemma updated_same k text ai st :
  hashable k = true ->
  store_history k (updated k text ai st) =
  store_history k st ++ [turn "user" text; turn "assistant" ai].
Proof.
  intros Hk. unfold updated, store_history at 1.
  rewrite !store_lookup_append_same, store_lookup_setdefault_same by exact Hk.
  simpl. now rewrite <- app_assoc.
Qed.

Lemma updated_other k k' text ai st :
  key_eqb k k' = false ->
  store_history k' (updated k text ai st) = store_history k' st.
Proof.
  intros Hne. unfold updated, store_history.
  now rewrite !store_lookup_append_other, store_lookup_setdefault_other.
Qed.

(** ** Running the effectful functions *)

Lemma sent_sent w cs ds : sent (sent w cs) ds = sent w (cs ++ ds).
Proof. unfold sent; simpl. now rewrite <- app_assoc. Qed.

Lemma sent_nil w : sent w [] = w.
Proof. destruct w; unfold sent; simpl. now rewrite app_nil_r. Qed.

Lemma requests_send_run c w :
  requests_send c w =
  (match backend (calls w) c with
   | NoResponse => Raise ConnectionError
   | Response st body => Ok (st, body)
   end, sent w [c]).
Proof. unfold requests_send, sent. now destruct (backend (calls w) c). Qed.

(** [get_active_model] makes exactly one listing call, never raises
    and leaves the store alone. *)
Lemma get_active_model_run w :
  get_active_model w =
  (Ok (resolved (backend (calls w) GetModels)), sent w [GetModels]).
Proof.
  unfold get_active_model, get_active_model_try, bind, try_catch.
  rewrite requests_send_run.
  destruct (backend (calls w) GetModels) as [|st body]; simpl; [reflexivity|].
  unfold raise_for_status.
  destruct (status_error st); simpl.
  - now destruct body as [[]|].
  - destruct body as [j|]; simpl; [|reflexivity].
    destruct j; simpl; try reflexivity.
    destruct (py_iter (dict_get_default fields "data" (JArr []))); simpl;
      [|reflexivity].
    now destruct (choose_model (model_ids a)).
Qed.

(** One pass of the chat loop, by the outcome of its call. *)
Lemma chat_attempt_run msgs m w :
  chat_attempt msgs m w =
  match classify (backend (calls w) (PostChat m msgs)) with
  | Text t => (Ok (inl t), sent w [PostChat m msgs])
  | EmptyText => (Ok (inr m), sent w [PostChat m msgs])
  | Raised =>
      (Ok (inr (resolved (backend (calls w ++ [PostChat m msgs]) GetModels))),
       sent w [PostChat m msgs; GetModels])
  end.
Proof.
  unfold chat_attempt, bind, try_catch.
  rewrite requests_send_run. unfold classify.
  destruct (backend (calls w) (PostChat m msgs)) as [|st body]; simpl.
  - rewrite get_active_model_run, sent_sent. reflexivity.
  - unfold raise_for_status.
    destruct (status_error st); simpl.
    + rewrite get_active_model_run, sent_sent. reflexivity.
    + destruct body as [j|]; simpl.
      * now destruct (Py.nonempty (_extract_ai_text j)).
      * rewrite get_active_model_run, sent_sent. reflexivity.
Qed.

Lemma completions_fallback_run msgs w :
  let m := resolved (backend (calls w) GetModels) in
  let c := PostCompletions m (_messages_to_prompt msgs) in
  completions_fallback msgs w =
  (Ok (fallback_text (classify (backend (calls w ++ [GetModels]) c))),
   sent w [GetModels; c]).
Proof.
  intros m c.
  unfold completions_fallback, bind, try_catch.
  rewrite get_active_model_run, requests_send_run, sent_sent. simpl.
  fold m. fold c. unfold classify.
  destruct (backend (calls w ++ [GetModels]) c) as [|st body]; simpl;
    [reflexivity|].
  unfold raise_for_status.
  destruct (status_error st); simpl; [reflexivity|].
  destruct body as [j|]; simpl; [|reflexivity].
  unfold Py.nonempty. now destruct (_extract_ai_text j).
Qed.

Arguments classify r : simpl never.
Arguments resolved r : simpl never.
Arguments _messages_to_prompt messages : simpl never.

(** Worlds are compared with their call logs flattened. *)
Ltac norm_sent :=
  unfold sent; cbn [calls conversations]; rewrite <- ?app_assoc; cbn [app].

(** Case analysis on the outcome that decides the right-hand side. *)
Ltac case_outcome :=
  lazymatch goal with
  | |- _ = match classify ?r with _ => _ end =>
      destruct (classify r) eqn:?; cbn beta iota
  end.

(** The whole of [_call_lm_studio], path by path. *)
Lemma _call_lm_studio_run msgs w :
  let m0 := resolved (backend (calls w) GetModels) in
  let w1 := sent w [GetModels] in
  let c1 := PostChat m0 msgs in
  _call_lm_studio msgs w =
  match classify (backend (calls w1) c1) with
  | Text t => (Ok t, sent w1 [c1])
  | o1 =>
      let w2 := match o1 with
                | Raised => sent (sent w1 [c1]) [GetModels]
                | _ => sent w1 [c1]
                end in
      let m1 := match o1 with
                | Raised => resolved (backend (calls (sent w1 [c1])) GetModels)
                | _ => m0
                end in
      let c2 := PostChat m1 msgs in
      match classify (backend (calls w2) c2) with
      | Text t => (Ok t, sent w2 [c2])
      | o2 =>
          let w3 := match o2 with
                    | Raised => sent (sent w2 [c2]) [GetModels]
                    | _ => sent w2 [c2]
                    end in
          let c3 := PostCompletions (resolved (backend (calls w3) GetModels))
                      (_messages_to_prompt msgs) in
          (Ok (fallback_text
                 (classify (backend (calls (sent w3 [GetModels])) c3))),
           sent (sent w3 [GetModels]) [c3])
      end
  end.
Proof.
  cbv zeta. unfold _call_lm_studio, bind. rewrite get_active_model_run.
  cbn [chat_loop]. unfold bind. rewrite chat_attempt_run. norm_sent.
  case_outcome; cbn [ret]; [reflexivity| |].
  - rewrite chat_attempt_run. norm_sent.
    case_outcome; cbn [ret]; [reflexivity| |];
      rewrite completions_fallback_run; now norm_sent.
  - rewrite chat_attempt_run. norm_sent.
    case_outcome; cbn [ret]; [reflexivity| |];
      rewrite completions_fallback_run; now norm_sent.
Qed.

(** [_call_lm_studio] always answers a string, whatever the backend
    does, and touches nothing but the call log. *)
Lemma _call_lm_studio_total msgs w :
  exists s new, _call_lm_studio msgs w = (Ok s, sent w new).
Proof.
  rewrite _call_lm_studio_run; cbv zeta.
  repeat match goal with
         | |- context [match classify ?r with _ => _ end] =>
             destruct (classify r)
         end;
    rewrite ?sent_sent; eauto.
Qed.

Ltac norm_sent_in_all :=
  unfold sent in *; cbn [calls conversations] in *;
  rewrite <- ?app_assoc in *; cbn [app] in *.

Ltac eval_outcomes :=
  unfold chat_outcomes, completions_outcomes;
  cbn [outcomes filter map fst snd is_chat is_completions app];
  rewrite <- ?app_assoc; cbn [app];
  repeat match goal with
         | H : classify ?r = _ |- context [classify ?r] => rewrite !H
         end;
  cbn [filter map fst snd is_chat is_completions].

(** Each path of [_call_lm_studio]: the run is already known, what
    is left is to read the outcomes off the log. *)
Ltac close_path side :=
  do 3 eexists; split; [now rewrite ?sent_sent|];
  norm_sent_in_all; eval_outcomes;
  try (split;
       [side; split; [reflexivity|eexists; reflexivity]
       |try (do 2 eexists); repeat split; reflexivity]);
  auto.

Ltac case_fallback :=
  match goal with
  | |- context [fallback_text (classify ?r)] => destruct (classify r) eqn:?
  end.

(** C3, as the code has it.  [_call_lm_studio] never raises: it
    answers a string after a listing call and a first chat call.  If
    that call yields text there is no other call.  Otherwise there is
    exactly one more chat call: after a listing call that re-resolves
    the model id when the first call raised, at once and with the
    same model id when the first call was answered without text.  If
    the second call fails too, exactly one completions call follows,
    last, with the linearized prompt, and the answer is its text or
    the empty string if it fails. *)
Theorem call_lm_studio_retry_then_fallback msgs w :
  exists s m0 rest,
    let new := GetModels :: PostChat m0 msgs :: rest in
    _call_lm_studio msgs w = (Ok s, sent w new) /\
    match chat_outcomes (calls w) new with
    | [Text t] => s = t /\ rest = []
    | [o1; o2] =>
        (o1 = Raised /\
         (exists rest',
            rest = GetModels
                   :: PostChat
                        (resolved
                           (backend (calls w ++ [GetModels; PostChat m0 msgs])
                              GetModels)) msgs
                   :: rest')
         \/ o1 = EmptyText /\ (exists rest', rest = PostChat m0 msgs :: rest'))
        /\ match o2 with
           | Text t => s = t /\ completions_outcomes (calls w) new = []
           | _ =>
               exists m2 o3,
                 completions_outcomes (calls w) new = [o3]
                 /\ last new GetModels
                    = PostCompletions m2 (_messages_to_prompt msgs)
                 /\ s = fallback_text o3
           end
    | _ => False
    end.
Proof.
  rewrite _call_lm_studio_run; cbv zeta.
  destruct (classify (backend (calls (sent w [GetModels])) _)) eqn:E1.
  - close_path ltac:(idtac).
  - destruct (classify (backend (calls (sent (sent w [GetModels]) _)) _))
      eqn:E2; [close_path ltac:(right) | case_fallback; close_path ltac:(right) ..].
  - destruct (classify
                (backend (calls (sent (sent (sent w [GetModels]) _) _)) _))
      eqn:E2; [close_path ltac:(left) | case_fallback; close_path ltac:(left) ..].
Qed.

(** ** The handler *)

(** Every run of [auto_reply] is one of two: the silent answer with
    the store as it was, or a completed exchange. *)
Lemma auto_reply_step req w :
  (exists w', auto_reply req w = (Ok (jsonify_message ""), w')
              /\ conversations w' = conversations w
              /\ (forall e w1, auto_reply_try req w = (Raise e, w1) -> w1 = w'))
  \/
  (exists d ai w1,
      request_data req = JObj d
      /\ hashable (sender_jid_of d) = true
      /\ admitted (sender_jid_of d) = true
      /\ Py.nonempty (_extract_message_text d) = true
      /\ Py.nonempty ai = true
      /\ _call_lm_studio (context_of d w) w = (Ok ai, w1)
      /\ auto_reply_try req w
         = (Ok (jsonify_message ai),
            mkWorld (updated (sender_jid_of d) (_extract_message_text d) ai
                       (conversations w)) (calls w1))
      /\ auto_reply req w
         = (Ok (jsonify_message ai),
            mkWorld (updated (sender_jid_of d) (_extract_message_text d) ai
                       (conversations w)) (calls w1))).
Proof.
  unfold auto_reply, try_catch, auto_reply_try, bind, lift.
  destruct (request_data req) as [| | | | |d] eqn:Hd;
    try (left; eexists; repeat split; [congruence]).
  set (k := sender_jid_of d). set (text := _extract_message_text d).
  assert (Hsilent : forall (w0 : world) (r : res response),
             r = Ok (jsonify_message "") \/ (exists e, r = Raise e) ->
             exists w', (match r with
                         | Ok a => (Ok a, w0)
                         | Raise e => ret (jsonify_message "") w0
                         end) = (Ok (jsonify_message ""), w')
                        /\ conversations w' = conversations w0
                        /\ (forall e w1, (r, w0) = (Raise e, w1) -> w1 = w')).
  { intros w0 r [->|[e ->]]; exists w0; repeat split; congruence. }
  destruct (hashable k) eqn:Hk.
  - (* a key that can be hashed: neither lookup raises *)
    assert (Hadm : (match ALLOWED_JIDS cfg with
                    | [] => ret false
                    | _ :: _ => not_in_allowed k
                    end) w = (Ok (negb (admitted k)), w)).
    { unfold admitted, not_in_allowed. rewrite Hk.
      destruct (ALLOWED_JIDS cfg); [reflexivity|].
      destruct k; try discriminate; reflexivity. }
    rewrite Hadm.
    destruct (admitted k) eqn:Ha; cbn [negb];
      [|left; apply (Hsilent w (Ok _)); now left].
    destruct (Py.nonempty text) eqn:Ht; cbn [negb];
      [|left; apply (Hsilent w (Ok _)); now left].
    unfold build_messages, bind, conversations_get. rewrite Hk. cbn [ret].
    change (Py.last_n 8 (store_history k (conversations w))
            ++ [turn "user" text]) with (context_of d w).
    destruct (_call_lm_studio_total (context_of d w) w) as (ai & new & Hrun).
    rewrite Hrun.
    destruct (Py.nonempty ai) eqn:Hai; cbn [negb].
    + right. exists d, ai, (sent w new). unfold update_memory, updated, ret.
      repeat split; trivial.
    + left. unfold ret. eexists.
      split; [reflexivity|]. split; [reflexivity|congruence].
  - (* an unhashable key raises at the first lookup *)
    left. destruct (ALLOWED_JIDS cfg).
    + cbn [ret]. destruct (negb (Py.nonempty text)).
      * apply (Hsilent w (Ok _)); now left.
      * unfold build_messages, bind, conversations_get. rewrite Hk.
        apply (Hsilent w (Raise TypeError)); right; eauto.
    + unfold not_in_allowed. rewrite Hk.
      apply (Hsilent w (Raise TypeError)); right; eauto.
Qed.

(** [auto_reply] as one equation: the backend is called only for a
    dict payload with a hashable, admitted sender and some text. *)
Lemma auto_reply_run req w :
  auto_reply req w =
  match request_data req with
  | JObj d =>
      let k := sender_jid_of d in
      let text := _extract_message_text d in
      if (hashable k && admitted k && Py.nonempty text)%bool then
        match _call_lm_studio (context_of d w) w with
        | (Ok ai, w1) =>
            if Py.nonempty ai
            then (Ok (jsonify_message ai),
                  mkWorld (updated k text ai (conversations w)) (calls w1))
            else (Ok (jsonify_message ""), w1)
        | (Raise _, w1) => (Ok (jsonify_message ""), w1)
        end
      else (Ok (jsonify_message ""), w)
  | _ => (Ok (jsonify_message ""), w)
  end.
Proof.
  unfold auto_reply, try_catch, auto_reply_try, bind, lift.
  destruct (request_data req) as [| | | | |d]; try reflexivity.
  cbv zeta.
  set (k := sender_jid_of d). set (text := _extract_message_text d).
  destruct (hashable k) eqn:Hk; cbn [andb].
  - assert (Hadm : (match ALLOWED_JIDS cfg with
                    | [] => ret false
                    | _ :: _ => not_in_allowed k
                    end) w = (Ok (negb (admitted k)), w)).
    { unfold admitted, not_in_allowed. rewrite Hk.
      destruct (ALLOWED_JIDS cfg); [reflexivity|].
      destruct k; try discriminate; reflexivity. }
    rewrite Hadm.
    destruct (admitted k); cbn [negb andb]; [|reflexivity].
    destruct (Py.nonempty text); cbn [negb]; [|reflexivity].
    unfold build_messages, bind, conversations_get. rewrite Hk. cbn [ret].
    change (Py.last_n 8 (store_history k (conversations w))
            ++ [turn "user" text]) with (context_of d w).
    destruct (_call_lm_studio_total (context_of d w) w) as (ai & new & Hrun).
    rewrite Hrun.
    now destruct (Py.nonempty ai).
  - destruct (ALLOWED_JIDS cfg).
    + cbn [ret]. destruct (negb (Py.nonempty text)); [reflexivity|].
      unfold build_messages, bind, conversations_get. now rewrite Hk.
    + unfold not_in_allowed. now rewrite Hk.
Qed.

(** C1.  Whatever the payload, the world and the backend, the handler
    answers the JSON object [{"message": s}] with status 200; and when
    the body of its [try] raises, the exception stops at the handler,
    which answers the empty reply from the state the exception left. *)
Theorem auto_reply_always_200 req w :
  exists s w',
    auto_reply req w = (Ok (JObj [("message", JStr s)], 200%Z), w')
    /\ (forall e w1, auto_reply_try req w = (Raise e, w1) ->
        s = "" /\ w' = w1).
Proof.
  destruct (auto_reply_step req w)
    as [(w' & Hr & _ & Hexn) | (d & ai & w1 & _ & _ & _ & _ & _ & _ & Htry & Hr)].
  - exists "", w'. split; [exact Hr|].
    intros e w1 He. split; [reflexivity|]. symmetry. eauto.
  - eexists _, _. split; [exact Hr|].
    intros e w2 He. rewrite Htry in He. discriminate.
Qed.

(** C4.  On the success path -- a dict payload, the sender let through
    by the allow-list, some text, and a non-empty answer [ai] from the
    inference client -- the body of the response is [{"message": ai}]
    with [ai] verbatim, and the sender's stored sequence is the one
    before followed by the user turn with the inbound text and then
    the assistant turn with [ai]. *)
Theorem successful_exchange req d ai w w1 :
  request_data req = JObj d ->
  hashable (sender_jid_of d) = true ->
  admitted (sender_jid_of d) = true ->
  Py.nonempty (_extract_message_text d) = true ->
  _call_lm_studio (context_of d w) w = (Ok ai, w1) ->
  Py.nonempty ai = true ->
  exists w',
    auto_reply req w = (Ok (JObj [("message", JStr ai)], 200%Z), w')
    /\ store_history (sender_jid_of d) (conversations w')
       = store_history (sender_jid_of d) (conversations w)
         ++ [turn "user" (_extract_message_text d); turn "assistant" ai]
    /\ length (store_history (sender_jid_of d) (conversations w'))
       = length (store_history (sender_jid_of d) (conversations w)) + 2.
Proof.
  intros Hd Hk Ha Ht Hrun Hai.
  rewrite auto_reply_run, Hd. cbv zeta.
  rewrite Hk, Ha, Ht, Hrun, Hai. cbn [andb].
  eexists. split; [reflexivity|]. cbn [conversations].
  rewrite updated_same by exact Hk.
  split; [reflexivity|]. rewrite length_app. reflexivity.
Qed.

(** C7.  A dict payload whose sender is not in a non-empty allow-list,
    or whose extracted text is empty, gets the empty reply, and the
    world -- the conversation store and the log of backend calls --
    is what it was: nothing was stored and nothing was sent. *)
Theorem rejected_or_empty_is_silent req d w :
  request_data req = JObj d ->
  (ALLOWED_JIDS cfg <> []
   /\ (forall s, sender_jid_of d = JStr s -> ~ In s (ALLOWED_JIDS cfg)))
  \/ _extract_message_text d = "" ->
  auto_reply req w = (Ok (JObj [("message", JStr "")], 200%Z), w).
Proof.
  intros Hd H. rewrite auto_reply_run, Hd. cbv zeta.
  destruct (hashable (sender_jid_of d) && admitted (sender_jid_of d)
            && Py.nonempty (_extract_message_text d))%bool eqn:E;
    [|reflexivity].
  apply andb_prop in E as [E Ht]. apply andb_prop in E as [_ Ha].
  exfalso. destruct H as [[Hne Hout] | Hempty].
  - unfold admitted in Ha.
    destruct (ALLOWED_JIDS cfg) as [|a l] eqn:Hal; [now apply Hne|].
    destruct (sender_jid_of d) as [| | |s| |]; try discriminate.
    apply existsb_exists in Ha as (x & Hin & Hx).
    apply String.eqb_eq in Hx. subst x. now apply (Hout s).
  - rewrite Hempty in Ht. discriminate.
Qed.

(** ** What reaches the backend *)

Lemma new_calls_sent w new : new_calls w (sent w new) = new.
Proof.
  unfold new_calls, sent; cbn [calls].
  induction (calls w) as [|c l IH]; simpl; [reflexivity|exact IH].
Qed.

Lemma length_last_n {A} n (l : list A) : length (Py.last_n n l) <= n.
Proof. unfold Py.last_n. rewrite length_skipn. lia. Qed.

(** Every chat call of [_call_lm_studio] carries the messages it was
    given. *)
Lemma _call_lm_studio_chat_calls msgs w :
  exists s new,
    _call_lm_studio msgs w = (Ok s, sent w new)
    /\ forall m ms, In (PostChat m ms) new -> ms = msgs.
Proof.
  rewrite _call_lm_studio_run; cbv zeta.
  repeat match goal with
         | |- context [match classify ?r with _ => _ end] =>
             destruct (classify r)
         end;
    rewrite ?sent_sent; cbn [app];
    (eexists _, _; split; [reflexivity|];
     intros m ms Hin; cbn [In] in Hin;
     repeat match goal with
            | H : _ \/ _ |- _ => destruct H
            | H : False |- _ => destruct H
            | H : _ = PostChat _ _ |- _ => inversion H; clear H
            end; congruence).
Qed.

(** C6.  Every chat call the handler makes carries the messages that
    [build_messages] built for the request, and these are a history of
    at most 8 turns -- the last turns stored for the sender -- followed
    by the one new user turn. *)
Theorem history_passed_is_bounded req w m msgs :
  In (PostChat m msgs) (new_calls w (snd (auto_reply req w))) ->
  exists d history,
    request_data req = JObj d
    /\ build_messages (sender_name_of d) (sender_jid_of d)
         (_extract_message_text d) w = (Ok msgs, w)
    /\ msgs = history ++ [turn "user" (_extract_message_text d)]
    /\ history
       = Py.last_n 8 (store_history (sender_jid_of d) (conversations w))
    /\ length history <= 8.
Proof.
  rewrite auto_reply_run.
  assert (Hnone : new_calls w w = []).
  { rewrite <- (sent_nil w) at 2. apply new_calls_sent. }
  destruct (request_data req) as [| | | | |d];
    cbn [snd]; try (rewrite Hnone; intros []).
  cbv zeta.
  destruct (hashable (sender_jid_of d)) eqn:Hk; cbn [andb snd];
    [|rewrite Hnone; intros []].
  destruct (admitted (sender_jid_of d)
            && Py.nonempty (_extract_message_text d))%bool;
    cbn [snd]; [|rewrite Hnone; intros []].
  destruct (_call_lm_studio_chat_calls (context_of d w) w)
    as (s & new & Hrun & Hchat).
  rewrite Hrun. intros Hin.
  assert (Hnew : In (PostChat m msgs) new).
  { destruct (Py.nonempty s); cbn [snd] in Hin.
    - unfold new_calls in *. cbn [calls] in Hin.
      now rewrite <- (new_calls_sent w new).
    - now rewrite new_calls_sent in Hin. }
  apply Hchat in Hnew. subst msgs.
  exists d, (Py.last_n 8 (store_history (sender_jid_of d) (conversations w))).
  repeat split.
  - unfold build_messages, bind, conversations_get. now rewrite Hk.
  - apply length_last_n.
Qed.

(** ** Many exchanges *)

Lemma auto_reply_length k req w :
  hashable k = true ->
  length (store_history k (conversations (snd (auto_reply req w))))
  = length (store_history k (conversations w))
    + 2 * (if (from_sender k req && replied (fst (auto_reply req w)))%bool
           then 1 else 0).
Proof.
  intros Hk.
  destruct (auto_reply_step req w)
    as [(w' & Hr & Hst & _)
       | (d & ai & w1 & Hd & Hkd & _ & _ & Hai & _ & _ & Hr)];
    rewrite Hr; cbn [fst snd conversations].
  - rewrite Hst. cbn [replied jsonify_message Py.nonempty].
    rewrite andb_false_r. lia.
  - unfold from_sender. rewrite Hd.
    cbn [replied jsonify_message]. rewrite Hai, andb_true_r.
    destruct (key_eqb (sender_jid_of d) k) eqn:E.
    + assert (Hsame : forall st, store_history k st
                                 = store_history (sender_jid_of d) st).
      { intros st. unfold store_history.
        enough (store_lookup k st = store_lookup (sender_jid_of d) st)
          as -> by reflexivity.
        induction st as [|[k0 v] st IH]; simpl; [reflexivity|].
        rewrite IH.
        destruct (key_eqb k0 k) eqn:E0, (key_eqb k0 (sender_jid_of d)) eqn:E1;
          trivial.
        - rewrite key_eqb_sym in E.
          now rewrite (key_eqb_trans _ _ _ E0 E) in E1.
        - now rewrite (key_eqb_trans _ _ _ E1 E) in E0. }
      rewrite !Hsame, updated_same, length_app by exact Hkd. simpl. lia.
    + rewrite updated_other by exact E. lia.
Qed.

(** C2, as the code has it.  Nothing is truncated on write: after any
    run of requests the sequence stored for a sender is longer than
    before by two turns for each of the sender's requests that was
    answered with text, whatever its length was. *)
Theorem stored_sequence_grows_by_two_per_exchange k reqs w :
  hashable k = true ->
  length (store_history k (conversations (snd (serve reqs w))))
  = length (store_history k (conversations w))
    + 2 * exchanges k reqs (fst (serve reqs w)).
Proof.
  intros Hk. revert w.
  induction reqs as [|req reqs IH]; intros w; simpl; [lia|].
  pose proof (auto_reply_length k req w Hk) as Hstep.
  destruct (auto_reply req w) as [r w1]. cbn [fst snd] in Hstep.
  specialize (IH w1).
  destruct (serve reqs w1) as [rs w2]. cbn [fst snd] in *.
  rewrite IH, Hstep. lia.
Qed.

(** ** Trimming *)

Lemma lstrip_head s :
  Py.lstrip s = ""
  \/ exists c r, Py.lstrip s = String c r /\ Py.is_space c = false.
Proof.
  induction s as [|c r IH]; simpl; [now left|].
  destruct (Py.is_space c) eqn:E; [exact IH|right; eauto].
Qed.

Lemma rstrip_keeps_head c r :
  Py.is_space c = false -> exists r', Py.rstrip (String c r) = String c r'.
Proof.
  intros Hc. simpl. destruct (Py.rstrip r); [rewrite Hc|]; eauto.
Qed.

Lemma rstrip_cons c r :
  Py.rstrip (String c r)
  = match Py.rstrip r with
    | EmptyString => if Py.is_space c then "" else String c ""
    | r' => String c r'
    end.
Proof. reflexivity. Qed.

Lemma rstrip_idem s : Py.rstrip (Py.rstrip s) = Py.rstrip s.
Proof.
  induction s as [|c r IH]; [reflexivity|].
  rewrite rstrip_cons.
  destruct (Py.rstrip r) as [|c' r'] eqn:E.
  - destruct (Py.is_space c) eqn:Hc; [reflexivity|].
    rewrite rstrip_cons. simpl. now rewrite Hc.
  - rewrite rstrip_cons, IH. reflexivity.
Qed.

(** [strip] of a stripped string changes nothing. *)
Lemma strip_idem s : Py.strip (Py.strip s) = Py.strip s.
Proof.
  unfold Py.strip.
  destruct (lstrip_head s) as [->|(c & r & -> & Hc)]; [reflexivity|].
  destruct (rstrip_keeps_head c r Hc) as (r' & Hr). rewrite Hr.
  simpl Py.lstrip. rewrite Hc, <- Hr. apply rstrip_idem.
Qed.

Lemma nonempty_false s : Py.nonempty s = false -> s = "".
Proof. now destruct s. Qed.

(** ** Reading the backend's answer *)

Lemma completion_text_trimmed ch0 s :
  completion_text ch0 = Some s -> Py.strip s = s.
Proof.
  unfold completion_text. destruct ch0; try discriminate.
  destruct (dict_get fields "text"); try discriminate.
  intros [= <-]. apply strip_idem.
Qed.

Lemma choice_text_trimmed ch0 s :
  choice_text ch0 = Some s -> Py.strip s = s.
Proof.
  unfold choice_text.
  destruct (match ch0 with JObj c => dict_get c "message" | _ => JNull end);
    try apply completion_text_trimmed.
  destruct (dict_get fields "content"); try apply completion_text_trimmed.
  intros [= <-]. apply strip_idem.
Qed.

Lemma _extract_ai_text_strip j :
  Py.strip (_extract_ai_text j) = _extract_ai_text j.
Proof.
  unfold _extract_ai_text, _extract_ai_text_try.
  destruct j; simpl; try reflexivity.
  destruct (match dict_get fields "choices" with
            | JArr (ch0 :: _) => choice_text ch0
            | _ => None
            end) as [s|] eqn:E.
  - destruct (dict_get fields "choices") as [| | | |[|ch0 l]|];
      try discriminate.
    now apply choice_text_trimmed in E.
  - destruct (dict_get fields "content"); try reflexivity. apply strip_idem.
Qed.

(** X1.  Whatever the backend answered, the text [_extract_ai_text]
    reads from it is trimmed: stripping it again changes nothing; and
    an answer that is not a JSON object gives the empty text. *)
Theorem extract_ai_text_trimmed j :
  Py.strip (_extract_ai_text j) = _extract_ai_text j
  /\ ((forall d, j <> JObj d) -> _extract_ai_text j = "").
Proof.
  split; [apply _extract_ai_text_strip|].
  intros Hnot. destruct j; try reflexivity. now destruct (Hnot fields).
Qed.

(** ** Reading the inbound payload *)

Lemma probe_some d ks v :
  probe d ks = Some v ->
  Py.nonempty (Py.strip v) = true
  /\ exists k, In k ks /\ dict_get d k = JStr v.
Proof.
  induction ks as [|k ks IH]; simpl; [discriminate|].
  assert (Hnext : probe d ks = Some v ->
                  Py.nonempty (Py.strip v) = true
                  /\ exists k0, (k = k0 \/ In k0 ks) /\ dict_get d k0 = JStr v).
  { intros H. destruct (IH H) as (Hv & k' & Hin & Hk).
    split; [exact Hv|]. exists k'. split; [now right|exact Hk]. }
  destruct (dict_get d k) as [| | |s| |] eqn:E; try exact Hnext.
  destruct (Py.nonempty (Py.strip s)) eqn:Hs; [|exact Hnext].
  intros [= <-]. split; [exact Hs|]. exists k. split; [now left|exact E].
Qed.

Lemma probe_none d ks :
  probe d ks = None <-> (forall k, In k ks -> ~ holds_text d k).
Proof.
  unfold holds_text. induction ks as [|k ks IH]; simpl.
  - split; [intros _ k []|reflexivity].
  - assert (Hskip : (forall v, dict_get d k = JStr v ->
                               Py.nonempty (Py.strip v) = false) ->
                    (probe d ks = None <->
                     (forall k0, k = k0 \/ In k0 ks ->
                        ~ (exists v, dict_get d k0 = JStr v
                                     /\ Py.nonempty (Py.strip v) = true)))).
    { intros Hk. rewrite IH. split.
      - intros H k0 [<-|Hin] (v & Hv & Hne).
        + rewrite (Hk v Hv) in Hne. discriminate.
        + apply (H k0 Hin). exists v. now split.
      - intros H k0 Hin. apply H. now right. }
    destruct (dict_get d k) as [| | |s| |] eqn:E;
      try (apply Hskip; intros v; discriminate).
    destruct (Py.nonempty (Py.strip s)) eqn:Hs.
    + split; [discriminate|]. intros H. exfalso.
      apply (H k); [now left|]. exists s. now split.
    + apply Hskip. intros v [= <-]. exact Hs.
Qed.

(** An earlier key that holds text wins over the later ones. *)
Lemma probe_first d pre k post v :
  (forall k', In k' pre -> ~ holds_text d k') ->
  dict_get d k = JStr v ->
  Py.nonempty (Py.strip v) = true ->
  probe d (pre ++ k :: post) = Some v.
Proof.
  intros Hpre Hk Hv. induction pre as [|k0 pre IH]; simpl.
  - now rewrite Hk, Hv.
  - assert (Hrest : probe d (pre ++ k :: post) = Some v).
    { apply IH. intros k' Hin. apply Hpre. now right. }
    destruct (dict_get d k0) as [| | |s| |] eqn:E; trivial.
    destruct (Py.nonempty (Py.strip s)) eqn:Hs; trivial.
    exfalso. apply (Hpre k0); [now left|]. exists s. now split.
Qed.

Lemma probe_wrappers_some payload ws v :
  probe_wrappers payload ws = Some v ->
  exists w inner,
    In w ws /\ dict_get payload w = JObj inner
    /\ probe inner candidates = Some v.
Proof.
  induction ws as [|w ws IH]; cbn [probe_wrappers In]; [discriminate|].
  assert (Hnext : probe_wrappers payload ws = Some v ->
                  exists w0 inner,
                    (w = w0 \/ In w0 ws) /\ dict_get payload w0 = JObj inner
                    /\ probe inner candidates = Some v).
  { intros H. destruct (IH H) as (w' & i' & Hin & Hw & Hp).
    exists w', i'. split; [now right|]. now split. }
  destruct (dict_get payload w) as [| | | | |inner] eqn:E; try exact Hnext.
  destruct (probe inner candidates) as [v'|] eqn:Hp; [|exact Hnext].
  intros [= <-]. exists w, inner. split; [now left|]. now split.
Qed.

Lemma probe_wrappers_none payload ws :
  probe_wrappers payload ws = None <->
  (forall w inner, In w ws -> dict_get payload w = JObj inner ->
                   probe inner candidates = None).
Proof.
  induction ws as [|w ws IH]; cbn [probe_wrappers In].
  - split; [intros _ w inner []|reflexivity].
  - assert (Hskip : (forall inner, dict_get payload w = JObj inner ->
                                   probe inner candidates = None) ->
                    (probe_wrappers payload ws = None <->
                     (forall w0 inner, w = w0 \/ In w0 ws ->
                        dict_get payload w0 = JObj inner ->
                        probe inner candidates = None))).
    { intros Hw. rewrite IH. split.
      - intros H w0 inner [<-|Hin] Hd; [now apply Hw|now apply (H w0)].
      - intros H w0 inner Hin. apply H. now right. }
    destruct (dict_get payload w) as [| | | | |inner] eqn:E;
      try (apply Hskip; intros inner0; discriminate).
    destruct (probe inner candidates) as [v'|] eqn:Hp.
    + split; [discriminate|]. intros H.
      rewrite (H w inner) in Hp; [discriminate|now left|exact E].
    + apply Hskip. intros inner0 [= <-]. exact Hp.
Qed.

(** X2.  [_extract_message_text] answers the empty text exactly when
    no candidate key holds a string that is not blank, neither at the
    top level nor inside a dict under "data" or "payload"; and a text
    it answers is not blank and is, verbatim, the string under a
    candidate key at one of these places. *)
Theorem extract_message_text_found_or_empty d :
  (_extract_message_text d = "" <->
   (forall k, In k candidates -> ~ holds_text d k)
   /\ (forall w inner k,
          In w ["data"; "payload"] -> dict_get d w = JObj inner ->
          In k candidates -> ~ holds_text inner k))
  /\ (_extract_message_text d <> "" ->
      Py.nonempty (Py.strip (_extract_message_text d)) = true
      /\ exists k,
           In k candidates
           /\ (dict_get d k = JStr (_extract_message_text d)
               \/ exists w inner,
                    In w ["data"; "payload"] /\ dict_get d w = JObj inner
                    /\ dict_get inner k = JStr (_extract_message_text d))).
Proof.
  unfold _extract_message_text.
  destruct (probe d candidates) as [v|] eqn:Htop.
  - destruct (probe_some _ _ _ Htop) as (Hv & k & Hin & Hk).
    split.
    + split.
      * intros ->. discriminate.
      * intros [Hnone _]. apply probe_none in Hnone. congruence.
    + intros _. split; [exact Hv|]. eauto.
  - destruct (probe_wrappers d ["data"; "payload"]) as [v|] eqn:Hwr.
    + destruct (probe_wrappers_some _ _ _ Hwr) as (w & inner & Hw & Hd & Hp).
      destruct (probe_some _ _ _ Hp) as (Hv & k & Hin & Hk).
      split.
      * split.
        -- intros ->. discriminate.
        -- intros [_ Hnone]. exfalso.
           apply (Hnone w inner k Hw Hd Hin). exists v. now split.
      * intros _. split; [exact Hv|]. exists k. split; [exact Hin|].
        right. eauto.
    + split; [|congruence].
      split; [intros _|reflexivity]. split.
      * now apply probe_none.
      * intros w inner k Hw Hd Hin.
        pose proof (proj1 (probe_wrappers_none _ _) Hwr w inner Hw Hd) as Hp.
        now apply (proj1 (probe_none _ _) Hp).
Qed.

(** X3.  The candidate keys are tried in their order, the top level
    before the wrappers: the first candidate key that holds text at
    the top level gives the text, whatever the later keys and the
    wrappers hold. *)
Theorem extract_message_text_priority d pre k post v :
  candidates = pre ++ k :: post ->
  (forall k', In k' pre -> ~ holds_text d k') ->
  dict_get d k = JStr v ->
  Py.nonempty (Py.strip v) = true ->
  _extract_message_text d = v.
Proof.
  intros Hc Hpre Hk Hv. unfold _extract_message_text.
  now rewrite Hc, (probe_first d pre k post v Hpre Hk Hv).
Qed.

Lemma py_or_truthy a b : truthy b = true -> truthy (py_or a b) = true.
Proof. unfold py_or. now destruct (truthy a) eqn:E. Qed.

(** X4.  The sender id the handler works with is never falsy -- never
    the empty string, zero, [null], an empty list or dict: it is the
    first truthy value among "jid", "wa_id" and "from", in that order,
    and "unknown" when none is truthy.  The same holds of the name: it
    is the first truthy value among "name", "profile_name" and
    "chat_name", and "User" when none is truthy. *)
Theorem sender_defaults d :
  truthy (sender_jid_of d) = true
  /\ truthy (sender_name_of d) = true
  /\ (truthy (dict_get d "jid") = false ->
      truthy (dict_get d "wa_id") = false ->
      truthy (dict_get d "from") = false ->
      sender_jid_of d = JStr "unknown")
  /\ (forall j, dict_get d "jid" = j -> truthy j = true ->
                sender_jid_of d = j)
  /\ (forall j, truthy (dict_get d "jid") = false ->
                dict_get d "wa_id" = j -> truthy j = true ->
                sender_jid_of d = j)
  /\ (forall j, truthy (dict_get d "jid") = false ->
                truthy (dict_get d "wa_id") = false ->
                dict_get d "from" = j -> truthy j = true ->
                sender_jid_of d = j)
  /\ (forall n, dict_get d "name" = n -> truthy n = true ->
                sender_name_of d = n)
  /\ (forall n, truthy (dict_get d "name") = false ->
                dict_get d "profile_name" = n -> truthy n = true ->
                sender_name_of d = n)
  /\ (forall n, truthy (dict_get d "name") = false ->
                truthy (dict_get d "profile_name") = false ->
                dict_get d "chat_name" = n -> truthy n = true ->
                sender_name_of d = n)
  /\ (truthy (dict_get d "name") = false ->
      truthy (dict_get d "profile_name") = false ->
      truthy (dict_get d "chat_name") = false ->
      sender_name_of d = JStr "User").
Proof.
  unfold sender_jid_of, sender_name_of.
  split; [now repeat apply py_or_truthy|].
  split; [now repeat apply py_or_truthy|].
  unfold py_or. split; [intros -> -> ->; reflexivity|].
  split; [intros j -> ->; reflexivity|].
  split; [intros j -> <- ->; reflexivity|].
  split; [intros j -> -> <- ->; reflexivity|].
  split; [intros n -> ->; reflexivity|].
  split; [intros n -> <- ->; reflexivity|].
  split; [intros n -> -> <- ->; reflexivity|].
  intros -> -> ->. reflexivity.
Qed.

(** ** More on the handler *)

Lemma store_history_key_eqb k1 k2 st :
  key_eqb k1 k2 = true -> store_history k2 st = store_history k1 st.
Proof.
  intros E. unfold store_history.
  enough (store_lookup k2 st = store_lookup k1 st) as -> by reflexivity.
  induction st as [|[k0 v] st IH]; simpl; [reflexivity|].
  rewrite IH.
  destruct (key_eqb k0 k2) eqn:E2, (key_eqb k0 k1) eqn:E1; trivial.
  - rewrite key_eqb_sym in E.
    now rewrite (key_eqb_trans _ _ _ E2 E) in E1.
  - now rewrite (key_eqb_trans _ _ _ E1 E) in E2.
Qed.

(** X5.  A body that is not JSON, or is falsy JSON, with form fields
    is handled exactly as the JSON object of these fields; with no
    form field either, the reply is empty and nothing is stored or
    sent. *)
Theorem form_encoded_body body fields w :
  (forall j, body = Some j -> truthy j = false) ->
  (fields <> [] ->
   auto_reply (mkRequest body fields) w
   = auto_reply
       (mkRequest (Some (JObj (map (fun p => (fst p, JStr (snd p))) fields)))
          []) w)
  /\ (fields = [] ->
      auto_reply (mkRequest body fields) w
      = (Ok (JObj [("message", JStr "")], 200%Z), w)).
Proof.
  intros Hbody.
  assert (Hdata : match body with
                  | Some j => py_or j (JObj [])
                  | None => JObj []
                  end = JObj []).
  { destruct body as [j|]; [|reflexivity].
    unfold py_or. now rewrite (Hbody j eq_refl). }
  split; intros Hf; rewrite !auto_reply_run; unfold request_data;
    cbn [get_json form]; rewrite Hdata.
  - destruct fields as [|f fields]; [contradiction|]. reflexivity.
  - subst fields. cbn [negb truthy andb]. cbv zeta.
    change (_extract_message_text []) with "".
    cbn [Py.nonempty]. now rewrite andb_false_r.
Qed.

(** X6.  A payload that is not a dict, or whose sender id cannot be
    hashed (a list or a dict), gets the empty reply; nothing is sent
    to the backend and the store is as it was, with or without an
    allow-list. *)
Theorem malformed_payload_is_silent req w :
  (forall d, request_data req = JObj d -> hashable (sender_jid_of d) = false) ->
  auto_reply req w = (Ok (JObj [("message", JStr "")], 200%Z), w).
Proof.
  intros H. rewrite auto_reply_run.
  destruct (request_data req) as [| | | | |d]; try reflexivity.
  cbv zeta. now rewrite (H d eq_refl).
Qed.

(** X7.  A reply without text leaves the conversation store as it
    was, also when the backend was called and failed or answered
    nothing usable. *)
Theorem silent_reply_keeps_store req w :
  replied (fst (auto_reply req w)) = false ->
  conversations (snd (auto_reply req w)) = conversations w.
Proof.
  destruct (auto_reply_step req w)
    as [(w' & Hr & Hst & _)
       | (d & ai & w1 & _ & _ & _ & _ & Hai & _ & _ & Hr)];
    rewrite Hr; cbn [fst snd].
  - intros _. exact Hst.
  - cbn [replied jsonify_message]. rewrite Hai. discriminate.
Qed.

(** What one request adds to the sequence stored for [k]. *)
Lemma auto_reply_history k req w :
  hashable k = true ->
  store_history k (conversations (snd (auto_reply req w)))
  = store_history k (conversations w)
    ++ (if (from_sender k req && replied (fst (auto_reply req w)))%bool
        then [turn "user" (request_text req);
              turn "assistant" (reply_text (fst (auto_reply req w)))]
        else []).
Proof.
  intros Hk.
  destruct (auto_reply_step req w)
    as [(w' & Hr & Hst & _)
       | (d & ai & w1 & Hd & Hkd & _ & _ & Hai & _ & _ & Hr)];
    rewrite Hr; cbn [fst snd conversations].
  - rewrite Hst. cbn [replied jsonify_message Py.nonempty].
    now rewrite andb_false_r, app_nil_r.
  - unfold from_sender, request_text. rewrite Hd.
    cbn [replied reply_text jsonify_message]. rewrite Hai, andb_true_r.
    destruct (key_eqb (sender_jid_of d) k) eqn:E.
    + rewrite !(store_history_key_eqb _ _ _ E).
      now rewrite updated_same by exact Hkd.
    + rewrite updated_other by exact E. now rewrite app_nil_r.
Qed.

(** X8.  A request changes nothing in what is stored for the other
    senders. *)
Theorem other_senders_untouched k req w :
  from_sender k req = false ->
  store_history k (conversations (snd (auto_reply req w)))
  = store_history k (conversations w).
Proof.
  intros Hother.
  destruct (auto_reply_step req w)
    as [(w' & Hr & Hst & _)
       | (d & ai & w1 & Hd & _ & _ & _ & _ & _ & _ & Hr)];
    rewrite Hr; cbn [snd conversations].
  - now rewrite Hst.
  - unfold from_sender in Hother. rewrite Hd in Hother.
    now apply updated_other.
Qed.

(** X9.  After any run of requests, the sequence stored for a sender
    is the one before followed by the transcript of the run: for each
    of the sender's requests answered with text, in order, the user
    turn with the extracted text and the assistant turn with the
    reply.  Nothing stored is ever removed or rewritten. *)
Theorem store_is_the_transcript k reqs w :
  hashable k = true ->
  store_history k (conversations (snd (serve reqs w)))
  = store_history k (conversations w)
    ++ transcript k reqs (fst (serve reqs w)).
Proof.
  intros Hk. revert w.
  induction reqs as [|req reqs IH]; intros w; simpl;
    [now rewrite app_nil_r|].
  pose proof (auto_reply_history k req w Hk) as Hstep.
  destruct (auto_reply req w) as [r w1]. cbn [fst snd] in Hstep.
  specialize (IH w1).
  destruct (serve reqs w1) as [rs w2]. cbn [fst snd transcript] in *.
  now rewrite IH, Hstep, <- app_assoc.
Qed.

(** ** What the relay sends and stores *)

Lemma classify_text_trimmed r t : classify r = Text t -> Py.strip t = t.
Proof.
  unfold classify. destruct r as [|st [j|]]; try discriminate;
    destruct (status_error st); try discriminate.
  destruct (Py.nonempty (_extract_ai_text j)); try discriminate.
  intros [= <-]. apply _extract_ai_text_strip.
Qed.

Lemma fallback_text_trimmed r :
  Py.strip (fallback_text (classify r)) = fallback_text (classify r).
Proof.
  destruct (classify r) eqn:E; try reflexivity.
  exact (classify_text_trimmed r s E).
Qed.

(** The text [_call_lm_studio] answers is trimmed. *)
Lemma _call_lm_studio_trimmed msgs w s w1 :
  _call_lm_studio msgs w = (Ok s, w1) -> Py.strip s = s.
Proof.
  rewrite _call_lm_studio_run; cbv zeta.
  repeat match goal with
         | |- context [match classify ?r with _ => _ end] =>
             let E := fresh "E" in destruct (classify r) eqn:E
         end;
    intros [= <- _];
    try apply fallback_text_trimmed;
    eapply classify_text_trimmed; eassumption.
Qed.

(** The calls of [_call_lm_studio]: at least a listing and a chat
    call, at most seven calls, two of them chat calls and one a
    completions call. *)
Lemma _call_lm_studio_traffic msgs w :
  exists s new,
    _call_lm_studio msgs w = (Ok s, sent w new)
    /\ 2 <= length new <= 7
    /\ length (filter is_chat new) <= 2
    /\ length (filter is_completions new) <= 1.
Proof.
  rewrite _call_lm_studio_run; cbv zeta.
  repeat match goal with
         | |- context [match classify ?r with _ => _ end] =>
             destruct (classify r)
         end;
    rewrite ?sent_sent; cbn [app];
    (eexists _, _; split; [reflexivity|]; cbn; lia).
Qed.

(** X10.  One request costs the backend at most seven calls, of which
    at most two go to the chat endpoint and at most one to the
    completions endpoint; the log of calls only grows. *)
Theorem backend_traffic_is_bounded req w :
  exists new,
    calls (snd (auto_reply req w)) = calls w ++ new
    /\ length new <= 7
    /\ length (filter is_chat new) <= 2
    /\ length (filter is_completions new) <= 1.
Proof.
  rewrite auto_reply_run.
  assert (Hnone : exists new,
             calls w = calls w ++ new /\ length new <= 7
             /\ length (filter is_chat new) <= 2
             /\ length (filter is_completions new) <= 1).
  { exists []. rewrite app_nil_r. cbn. repeat split; lia. }
  destruct (request_data req) as [| | | | |d]; cbn [snd]; try exact Hnone.
  cbv zeta.
  destruct (hashable (sender_jid_of d) && admitted (sender_jid_of d)
            && Py.nonempty (_extract_message_text d))%bool;
    cbn [snd]; [|exact Hnone].
  destruct (_call_lm_studio_traffic (context_of d w) w)
    as (s & new & Hrun & Hlen & Hchat & Hcompl).
  rewrite Hrun. exists new.
  destruct (Py.nonempty s); cbn [snd calls sent]; repeat split; lia.
Qed.

(** X11.  The text of every reply is trimmed: it neither starts nor
    ends with whitespace, whatever the backend sent. *)
Theorem reply_is_trimmed req w :
  Py.strip (reply_text (fst (auto_reply req w)))
  = reply_text (fst (auto_reply req w)).
Proof.
  destruct (auto_reply_step req w)
    as [(w' & Hr & _)
       | (d & ai & w1 & _ & _ & _ & _ & _ & Hrun & _ & Hr)];
    rewrite Hr; cbn [fst reply_text jsonify_message]; [reflexivity|].
  exact (_call_lm_studio_trimmed _ _ _ _ Hrun).
Qed.

Lemma paired_snoc h u a :
  paired h ->
  Py.nonempty (Py.strip u) = true ->
  Py.nonempty a = true ->
  Py.strip a = a ->
  paired ((h ++ [turn "user" u]) ++ [turn "assistant" a]).
Proof.
  intros Hh Hu Ha Hs. induction Hh as [|u' a' h' Hu' Ha' Hs' Hh' IH]; simpl.
  - constructor; trivial. constructor.
  - constructor; trivial.
Qed.

Lemma store_append_twice_Forall (P : list message -> Prop) k m1 m2 st :
  (forall v, P v -> P ((v ++ [m1]) ++ [m2])) ->
  Forall (fun e => P (snd e)) st ->
  Forall (fun e => P (snd e)) (store_append k m2 (store_append k m1 st)).
Proof.
  intros Hstep. induction 1 as [|[k0 v] st Hv Hst IH]; simpl; [constructor|].
  destruct (key_eqb k0 k) eqn:E; simpl; rewrite E.
  - constructor; [now apply Hstep|exact Hst].
  - constructor; [exact Hv|exact IH].
Qed.

Lemma updated_paired k u a st :
  Py.nonempty (Py.strip u) = true ->
  Py.nonempty a = true ->
  Py.strip a = a ->
  store_paired st -> store_paired (updated k u a st).
Proof.
  intros Hu Ha Hs Hst. unfold updated, store_paired.
  apply store_append_twice_Forall.
  - intros v Hv. now apply paired_snoc.
  - unfold store_setdefault. destruct (store_lookup k st); [exact Hst|].
    apply Forall_app. split; [exact Hst|]. repeat constructor.
Qed.

Lemma auto_reply_paired req w :
  store_paired (conversations w) ->
  store_paired (conversations (snd (auto_reply req w))).
Proof.
  intros Hst.
  destruct (auto_reply_step req w)
    as [(w' & Hr & Hsame & _)
       | (d & ai & w1 & _ & _ & _ & Ht & Hai & Hrun & _ & Hr)];
    rewrite Hr; cbn [snd conversations]; [now rewrite Hsame|].
  apply updated_paired; trivial.
  - unfold _extract_message_text in *.
    destruct (probe d candidates) as [v|] eqn:Htop;
      [exact (proj1 (probe_some _ _ _ Htop))|].
    destruct (probe_wrappers d ["data"; "payload"]) as [v|] eqn:Hwr;
      [|discriminate].
    destruct (probe_wrappers_some _ _ _ Hwr) as (w0 & inner & _ & _ & Hp).
    exact (proj1 (probe_some _ _ _ Hp)).
  - exact (_call_lm_studio_trimmed _ _ _ _ Hrun).
Qed.

(** X12.  The handler keeps the store well formed: if every stored
    sequence is made of exchanges -- a user turn whose text is not
    blank followed by an assistant turn whose text is trimmed and not
    empty -- it still is after any run of requests.  So a sequence
    stored in a store that started empty has an even number of turns
    and no turn that the linearization would skip. *)
Theorem store_stays_paired reqs w :
  store_paired (conversations w) ->
  store_paired (conversations (snd (serve reqs w))).
Proof.
  revert w. induction reqs as [|req reqs IH]; intros w Hst; simpl; trivial.
  pose proof (auto_reply_paired req w Hst) as Hstep.
  destruct (auto_reply req w) as [r w1]. cbn [snd] in Hstep.
  specialize (IH w1 Hstep).
  now destruct (serve reqs w1) as [rs w2].
Qed.

(** X13.  The diagnostic endpoint never raises and always answers 200
    with status "ok", also when the backend is down; it makes one
    listing call and leaves the store alone; the active model it
    reports is the configured one whenever the listing cannot be
    reached or parsed. *)
Theorem root_reports ep w :
  exists active,
    root ep w
    = (Ok (JObj [("status", JStr "ok");
                 ("lm_studio_url", JStr (LM_STUDIO_URL ep));
                 ("configured_model", JStr (LM_STUDIO_MODEL cfg));
                 ("active_model", active)], 200%Z),
       sent w [GetModels])
    /\ fst (get_active_model w) = Ok active
    /\ (listing_failed (backend (calls w) GetModels) = true ->
        active = JStr (LM_STUDIO_MODEL cfg)).
Proof.
  unfold root, bind. rewrite get_active_model_run. cbn [ret fst].
  eexists. split; [reflexivity|]. split; [reflexivity|].
  intros Hfail. unfold resolved.
  destruct (backend (calls w) GetModels) as [|st [j|]]; trivial.
  destruct j; trivial. cbn [listing_failed] in Hfail.
  destruct (status_error st); trivial. cbn [orb] in Hfail.
  destruct (dict_get_default fields "data" (JArr [])); trivial; discriminate.
Qed.

(** X14.  The model id the resolver answers is the configured
    preference or one of the ids of the listing: it never makes one
    up. *)
Theorem resolved_model_is_configured_or_listed w :
  exists id,
    fst (get_active_model w) = Ok id
    /\ (id = JStr (LM_STUDIO_MODEL cfg)
        \/ exists st d items,
             backend (calls w) GetModels = Response st (Some (JObj d))
             /\ py_iter (dict_get_default d "data" (JArr [])) = Ok items
             /\ In id (model_ids items)).
Proof.
  rewrite get_active_model_run. cbn [fst]. eexists. split; [reflexivity|].
  unfold resolved.
  destruct (backend (calls w) GetModels) as [|st [j|]]; try now left.
  destruct j; try now left.
  destruct (status_error st); [now left|].
  destruct (py_iter (dict_get_default fields "data" (JArr []))) as [items|]
    eqn:Hit; [|now left].
  destruct (choose_model (model_ids items)) as [id|] eqn:Hc; [|now left].
  unfold choose_model in Hc.
  assert (Hhd : forall id0, match model_ids items with
                            | id0 :: _ => Some id0
                            | [] => None
                            end = Some id0 -> In id0 (model_ids items)).
  { intros id0. destruct (model_ids items); [discriminate|].
    intros [= <-]. now left. }
  destruct (_ || _)%bool in Hc.
  - right. exists st, fields, items. repeat split; trivial. now apply Hhd.
  - destruct (str_in (LM_STUDIO_MODEL cfg) (model_ids items)).
    + injection Hc as <-. now left.
    + right. exists st, fields, items. repeat split; trivial. now apply Hhd.
Qed.

End Relay.

(** ** The model resolver *)

Lemma model_ids_catalog ids :
  model_ids (map (fun i => JObj [("id", JStr i)]) ids) = map JStr ids.
Proof. induction ids as [|i ids IH]; simpl; [reflexivity|now rewrite IH]. Qed.

Lemma str_in_map_JStr s ids : str_in s (map JStr ids) = existsb (String.eqb s) ids.
Proof.
  unfold str_in. induction ids as [|i ids IH]; simpl; [reflexivity|].
  now rewrite IH.
Qed.

Lemma existsb_eqb_absent s l : ~ In s l -> existsb (String.eqb s) l = false.
Proof.
  intros Hnot. destruct (existsb (String.eqb s) l) eqn:E; [|reflexivity].
  apply existsb_exists in E as (x & Hin & Hx).
  apply String.eqb_eq in Hx. subst x. contradiction.
Qed.

Lemma resolved_catalog cfg st ids :
  status_error st = false ->
  resolved cfg (Response st (Some (catalog ids))) =
  match choose_model cfg (map JStr ids) with
  | Some id => id
  | None => JStr (LM_STUDIO_MODEL cfg)
  end.
Proof.
  intros Hst. unfold resolved, catalog. rewrite Hst.
  cbn [dict_get_default String.eqb Ascii.eqb Bool.eqb py_iter].
  now rewrite model_ids_catalog.
Qed.

(** C5.  The model resolver never raises: it always answers a model
    id after exactly one listing call.  With the catalog [m1, m2] it
    answers [m1] for the preference "auto" and [m2] for the preference
    "m2"; with a catalog that starts with [m1] and does not list
    "missing" it answers [m1] for the preference "missing"; and when
    the listing cannot be reached or parsed it answers the configured
    preference unchanged. *)
Theorem model_resolver backend w :
  (forall cfg, exists id,
      get_active_model cfg backend w = (Ok id, sent w [GetModels]))
  /\ (forall st allowed,
         status_error st = false ->
         backend (calls w) GetModels
         = Response st (Some (catalog ["m1"; "m2"])) ->
         fst (get_active_model (mkConfig "auto" allowed) backend w)
         = Ok (JStr "m1")
         /\ fst (get_active_model (mkConfig "m2" allowed) backend w)
            = Ok (JStr "m2"))
  /\ (forall st allowed others,
         status_error st = false ->
         backend (calls w) GetModels
         = Response st (Some (catalog ("m1" :: others))) ->
         ~ In "missing" others ->
         fst (get_active_model (mkConfig "missing" allowed) backend w)
         = Ok (JStr "m1"))
  /\ (forall cfg,
         listing_failed (backend (calls w) GetModels) = true ->
         fst (get_active_model cfg backend w)
         = Ok (JStr (LM_STUDIO_MODEL cfg))).
Proof.
  split; [|split; [|split]].
  - intros cfg. eexists. apply get_active_model_run.
  - intros st allowed Hst Hresp.
    rewrite !get_active_model_run, Hresp, !resolved_catalog by assumption.
    split; reflexivity.
  - intros st allowed others Hst Hresp Hnot.
    rewrite get_active_model_run, Hresp, resolved_catalog by assumption.
    unfold choose_model. rewrite str_in_map_JStr.
    cbn [LM_STUDIO_MODEL map existsb].
    rewrite existsb_eqb_absent by assumption. reflexivity.
  - intros cfg Hfail. rewrite get_active_model_run. cbn [fst]. f_equal.
    unfold resolved.
    destruct (backend (calls w) GetModels) as [|st [j|]]; trivial.
    destruct j; trivial. cbn [listing_failed] in Hfail.
    destruct (status_error st); trivial. cbn [orb] in Hfail.
    destruct (dict_get_default fields "data" (JArr [])); trivial;
      discriminate.
Qed.

(** ** Prompt linearization *)

Lemma msg_get_trim_content m :
  msg_get (trim_content m) "content"
  = option_map Py.strip (msg_get m "content").
Proof.
  induction m as [|[k v] m IH]; simpl; [reflexivity|].
  destruct (String.eqb k "content") eqn:E; simpl; now rewrite E.
Qed.

Lemma msg_get_trim_role m :
  msg_get (trim_content m) "role" = msg_get m "role".
Proof.
  induction m as [|[k v] m IH]; simpl; [reflexivity|].
  destruct (String.eqb k "content") eqn:E; simpl.
  - apply String.eqb_eq in E. subst k. exact IH.
  - now rewrite IH.
Qed.

Lemma render_turn_trim m : render_turn m = spec_render_turn (trim_content m).
Proof.
  unfold render_turn, spec_render_turn.
  rewrite msg_get_trim_content, msg_get_trim_role.
  now destruct (msg_get m "content").
Qed.

Lemma render_turns_trim ms :
  render_turns ms = spec_render_turns (map trim_content ms).
Proof.
  induction ms as [|m ms IH]; simpl; [reflexivity|].
  now rewrite render_turn_trim, IH.
Qed.

Lemma last_n_map {A B} (f : A -> B) n l :
  Py.last_n n (map f l) = map f (Py.last_n n l).
Proof. unfold Py.last_n. now rewrite length_map, skipn_map. Qed.

Lemma last_n_idem {A} n (l : list A) :
  Py.last_n n (Py.last_n n l) = Py.last_n n l.
Proof.
  unfold Py.last_n at 1.
  replace (length (Py.last_n n l) - n) with 0; [reflexivity|].
  pose proof (length_last_n n l). lia.
Qed.

Lemma string_app_assoc (a b c : string) :
  ((a ++ b) ++ c)%string = (a ++ (b ++ c))%string.
Proof. induction a as [|ch a IH]; simpl; [reflexivity|now rewrite IH]. Qed.

Lemma join_last sep parts x :
  Py.join sep (parts ++ [x])
  = match parts with
    | [] => x
    | _ => (Py.join sep parts ++ sep ++ x)%string
    end.
Proof.
  induction parts as [|p parts IH]; [reflexivity|].
  cbn [app]. destruct parts as [|q parts]; [reflexivity|].
  change (Py.join sep (p :: (q :: parts) ++ [x]))
    with (p ++ sep ++ Py.join sep ((q :: parts) ++ [x]))%string.
  rewrite IH.
  change (Py.join sep (p :: q :: parts))
    with (p ++ sep ++ Py.join sep (q :: parts))%string.
  now rewrite !string_app_assoc.
Qed.

(** C8, as the code has it.  The prompt is the linearization of the
    specification applied to the messages with their contents trimmed
    of surrounding whitespace (so a turn whose content is only
    whitespace is skipped too); it depends on the last 8 turns only;
    and it always ends with the line "Assistant:", which is the whole
    prompt or follows a newline. *)
Theorem prompt_linearization msgs :
  _messages_to_prompt msgs = spec_linearize (map trim_content msgs)
  /\ _messages_to_prompt msgs = _messages_to_prompt (Py.last_n 8 msgs)
  /\ (_messages_to_prompt msgs = "Assistant:"
      \/ exists before,
           _messages_to_prompt msgs
           = (before ++ Py.newline ++ "Assistant:")%string).
Proof.
  unfold _messages_to_prompt, spec_linearize. repeat split.
  - now rewrite last_n_map, render_turns_trim.
  - now rewrite last_n_idem.
  - rewrite join_last.
    destruct (render_turns (Py.last_n 8 msgs)); [now left|right; eauto].
Qed.

(** ** Wrapped payloads *)

Lemma dict_get_absent d k :
  (forall v, ~ In (k, v) d) -> dict_get d k = JNull.
Proof.
  induction d as [|[k' v'] d IH]; intros Habs; simpl; [reflexivity|].
  destruct (String.eqb k' k) eqn:E.
  - apply String.eqb_eq in E. subst k'. exfalso. apply (Habs v'). now left.
  - apply IH. intros v Hin. apply (Habs v). now right.
Qed.

Lemma fully_wrapped_get d k :
  fully_wrapped d -> k <> "data" -> k <> "payload" -> dict_get d k = JNull.
Proof.
  intros Hw Hd Hp. apply dict_get_absent. intros v Hin.
  destruct (Hw k v Hin); contradiction.
Qed.

Lemma fully_wrapped_probe d :
  fully_wrapped d -> probe d candidates = None.
Proof.
  intros Hw. unfold candidates, probe.
  rewrite !(fully_wrapped_get d) by (trivial; discriminate). reflexivity.
Qed.

Lemma fully_wrapped_sender d :
  fully_wrapped d ->
  sender_jid_of d = JStr "unknown" /\ sender_name_of d = JStr "User".
Proof.
  intros Hw. unfold sender_jid_of, sender_name_of.
  rewrite !(fully_wrapped_get d) by (trivial; discriminate).
  split; reflexivity.
Qed.

(** C9, as the code has it.  For a payload whose only top-level keys
    are wrapper keys, the text is the one probed inside the wrapper
    -- "data" first, "payload" when "data" holds no dict with text --
    while the sender id and name are the defaults "unknown" and
    "User"; so an allow-list that does not itself list "unknown"
    rejects every such payload with the empty reply, untouched store
    and no backend call. *)
Theorem wrapped_payload cfg backend req d w :
  request_data req = JObj d ->
  fully_wrapped d ->
  sender_jid_of d = JStr "unknown"
  /\ sender_name_of d = JStr "User"
  /\ (forall inner v,
         dict_get d "data" = JObj inner ->
         probe inner candidates = Some v ->
         _extract_message_text d = v)
  /\ (forall inner v,
         (forall inner0, dict_get d "data" = JObj inner0 ->
                         probe inner0 candidates = None) ->
         dict_get d "payload" = JObj inner ->
         probe inner candidates = Some v ->
         _extract_message_text d = v)
  /\ (ALLOWED_JIDS cfg <> [] ->
      ~ In "unknown" (ALLOWED_JIDS cfg) ->
      auto_reply cfg backend req w
      = (Ok (JObj [("message", JStr "")], 200%Z), w)).
Proof.
  intros Hd Hw.
  destruct (fully_wrapped_sender d Hw) as [Hjid Hname].
  pose proof (fully_wrapped_probe d Hw) as Htop.
  repeat (split; trivial).
  - intros inner v Hdata Hin. unfold _extract_message_text.
    rewrite Htop. cbn [probe_wrappers]. now rewrite Hdata, Hin.
  - intros inner v Hdata Hpay Hin. unfold _extract_message_text.
    rewrite Htop. cbn [probe_wrappers]. rewrite Hpay, Hin.
    destruct (dict_get d "data") as [| | | | |inner0]; trivial.
    now rewrite (Hdata inner0 eq_refl).
  - intros Hne Hnot. rewrite auto_reply_run, Hd. cbv zeta.
    rewrite Hjid. unfold admitted.
    destruct (ALLOWED_JIDS cfg) as [|a l] eqn:Hal; [contradiction|].
    rewrite existsb_eqb_absent by exact Hnot. reflexivity.
Qed.

(** ** The properties at concrete inputs *)

(** A payload that is a list makes [data.get] raise inside the
    handler; the handler still answers the empty reply. *)
Example list_payload_raises_inside :
  auto_reply_try open_cfg friendly (json_request (JArr [JNum 1])) fresh
  = (Raise AttributeError, fresh)
  /\ auto_reply open_cfg friendly (json_request (JArr [JNum 1])) fresh
     = (Ok (JObj [("message", JStr "")], 200%Z), fresh).
Proof. split; reflexivity. Qed.

(** So does a sender id that is a list, which cannot be hashed. *)
Example list_sender_raises_inside :
  auto_reply_try open_cfg friendly
    (json_request (JObj [("jid", JArr [JNum 1]); ("text", JStr "hi")])) fresh
  = (Raise TypeError, fresh).
Proof. reflexivity. Qed.

(** C2 as stated fails: the store starts empty, five exchanges with
    one sender are served, and that sender's stored sequence holds 10
    turns, more than the bound of 8. *)
Lemma stored_sequence_exceeds_bound :
  ~ (forall cfg backend reqs k,
        length (store_history k
                  (conversations (snd (serve cfg backend reqs fresh)))) <= 8).
Proof.
  intros H.
  specialize (H open_cfg friendly five_his (JStr "42")).
  vm_compute in H. lia.
Qed.

Lemma stored_sequence_grows_witness :
  hashable (JStr "42") = true
  /\ length (store_history (JStr "42")
               (conversations (snd (serve open_cfg friendly five_his fresh))))
     = 10.
Proof.
  split; [reflexivity|].
  exact (stored_sequence_grows_by_two_per_exchange open_cfg friendly
           (JStr "42") five_his fresh eq_refl).
Defined.

(** C3 as stated fails: when the chat endpoint answers JSON without
    any text, the second chat call follows the first at once, with the
    same model id and no listing call in between. *)
Lemma retry_without_reresolving :
  ~ (forall cfg backend msgs w,
        first_chat_failed cfg backend msgs w ->
        reresolved_before_retry cfg backend msgs w).
Proof.
  intros H.
  specialize (H open_cfg mute [turn "user" "hi"] fresh).
  destruct H as (m0 & m1 & rest & Heq); [vm_compute; exact I|].
  vm_compute in Heq. discriminate.
Qed.

Lemma successful_exchange_witness :
  exists w',
    auto_reply open_cfg friendly (json_request (JObj hi_payload)) fresh
    = (Ok (JObj [("message", JStr "hello there")], 200%Z), w')
    /\ store_history (JStr "42") (conversations w')
       = [turn "user" "hi"; turn "assistant" "hello there"]
    /\ length (store_history (JStr "42") (conversations w')) = 2.
Proof.
  exact (successful_exchange open_cfg friendly
           (json_request (JObj hi_payload)) hi_payload "hello there" fresh
           (sent fresh [GetModels;
                        PostChat (JStr "m1") [turn "user" "hi"]])
           eq_refl eq_refl eq_refl eq_refl eq_refl eq_refl).
Defined.

Lemma model_resolver_witness :
  fst (get_active_model (mkConfig "auto" []) friendly fresh) = Ok (JStr "m1")
  /\ fst (get_active_model (mkConfig "m2" []) friendly fresh) = Ok (JStr "m2")
  /\ fst (get_active_model (mkConfig "missing" []) friendly fresh)
     = Ok (JStr "m1")
  /\ fst (get_active_model (mkConfig "m9" []) down fresh) = Ok (JStr "m9").
Proof.
  destruct (model_resolver friendly fresh) as (_ & Hcat & Hmiss & _).
  destruct (model_resolver down fresh) as (_ & _ & _ & Hfail).
  destruct (Hcat 200%Z [] eq_refl eq_refl) as [Hauto Hm2].
  split; [exact Hauto|]. split; [exact Hm2|]. split.
  - apply (Hmiss 200%Z [] ["m2"] eq_refl eq_refl).
    simpl. intros [H|[]]. discriminate.
  - apply (Hfail (mkConfig "m9" [])). reflexivity.
Defined.

Lemma history_passed_is_bounded_witness :
  let after_five := snd (serve open_cfg friendly five_his fresh) in
  let sixth := context_of hi_payload after_five in
  In (PostChat (JStr "m1") sixth)
     (new_calls after_five
        (snd (auto_reply open_cfg friendly (json_request (JObj hi_payload))
                after_five)))
  /\ length (store_history (JStr "42") (conversations after_five)) = 10
  /\ (exists history,
         sixth = history ++ [turn "user" "hi"] /\ length history <= 8).
Proof.
  intros after_five sixth.
  assert (Hin : In (PostChat (JStr "m1") sixth)
                  (new_calls after_five
                     (snd (auto_reply open_cfg friendly
                             (json_request (JObj hi_payload)) after_five)))).
  { vm_compute. right. left. reflexivity. }
  split; [exact Hin|]. split; [reflexivity|].
  destruct (history_passed_is_bounded open_cfg friendly _ _ _ _ Hin)
    as (d & history & Hd & _ & Hmsgs & _ & Hlen).
  injection Hd as <-.
  exists history. split; [exact Hmsgs|exact Hlen].
Defined.

Lemma rejected_or_empty_is_silent_witness :
  auto_reply (mkConfig "auto" ["99"]) friendly
    (json_request (JObj hi_payload)) fresh
  = (Ok (JObj [("message", JStr "")], 200%Z), fresh)
  /\ auto_reply open_cfg friendly
       (json_request (JObj [("jid", JStr "42"); ("text", JStr "  ")])) fresh
     = (Ok (JObj [("message", JStr "")], 200%Z), fresh).
Proof.
  split.
  - apply (rejected_or_empty_is_silent (mkConfig "auto" ["99"]) friendly
             (json_request (JObj hi_payload)) hi_payload fresh eq_refl).
    left. split; [discriminate|].
    intros s Hs [Hin|[]]. vm_compute in Hs. congruence.
  - apply (rejected_or_empty_is_silent open_cfg friendly
             (json_request (JObj [("jid", JStr "42"); ("text", JStr "  ")]))
             [("jid", JStr "42"); ("text", JStr "  ")] fresh eq_refl).
    right. reflexivity.
Defined.

(** C8 as stated fails: a content with surrounding blanks is not
    rendered as it is; the code renders it trimmed. *)
Lemma linearization_trims_content :
  _messages_to_prompt [turn "user" " hi "]
  <> spec_linearize [turn "user" " hi "].
Proof. vm_compute. discriminate. Qed.

Lemma wrapped_hi_fully_wrapped : fully_wrapped wrapped_hi.
Proof. intros k v [H|[]]. inversion H. now left. Qed.

(** C9 as stated fails: an allow-list that lists "unknown" lets the
    wrapped payload through, and the reply is not empty. *)
Lemma wrapped_payload_passes_as_unknown :
  ~ (forall cfg backend req d w,
        request_data req = JObj d ->
        fully_wrapped d ->
        ALLOWED_JIDS cfg <> [] ->
        fst (auto_reply cfg backend req w)
        = Ok (JObj [("message", JStr "")], 200%Z)).
Proof.
  intros H.
  specialize (H (mkConfig "auto" ["unknown"]) friendly
                (json_request (JObj wrapped_hi)) wrapped_hi fresh
                eq_refl wrapped_hi_fully_wrapped).
  vm_compute in H. discriminate H. discriminate.
Qed.

Lemma wrapped_payload_witness :
  sender_jid_of wrapped_hi = JStr "unknown"
  /\ sender_name_of wrapped_hi = JStr "User"
  /\ _extract_message_text wrapped_hi = "hi"
  /\ auto_reply (mkConfig "auto" ["42"]) friendly
       (json_request (JObj wrapped_hi)) fresh
     = (Ok (JObj [("message", JStr "")], 200%Z), fresh).
Proof.
  destruct (wrapped_payload (mkConfig "auto" ["42"]) friendly
              (json_request (JObj wrapped_hi)) wrapped_hi fresh
              eq_refl wrapped_hi_fully_wrapped)
    as (Hjid & Hname & Hdata & _ & Hrej).
  split; [exact Hjid|]. split; [exact Hname|]. split.
  - apply (Hdata hi_payload); reflexivity.
  - apply Hrej; [discriminate|].
    simpl. intros [H|[]]. discriminate.
Defined.

(** ** Two requests of one sender at the same time *)

(** The statements run alone are the update of [auto_reply]. *)
Lemma run_update_stmts k text ai st :
  run_stmts (update_stmts k text ai) st = updated k text ai st.
Proof. reflexivity. Qed.

Lemma interleaving_appended l r m :
  interleaving l r m -> interleaving (appended l) (appended r) (appended m).
Proof.
  induction 1 as [|x l r m H IH|x l r m H IH]; simpl.
  - constructor.
  - destruct x; [exact IH|now constructor].
  - destruct x; [exact IH|now constructor].
Qed.

Lemma interleaving_on_key {A} (P : A -> Prop) (l r m : list A) :
  interleaving l r m -> Forall P l -> Forall P r -> Forall P m.
Proof.
  induction 1 as [|x l r m H IH|x l r m H IH]; intros Hl Hr.
  - constructor.
  - inversion Hl; subst. constructor; auto.
  - inversion Hr; subst. constructor; auto.
Qed.

(** Once the entry exists, statements on [k] append their turns to it
    in the order they run, and lose none. *)
Lemma run_stmts_present k ss : forall st h,
  Forall (on_key k) ss ->
  store_lookup k st = Some h ->
  store_lookup k (run_stmts ss st) = Some (h ++ appended ss).
Proof.
  induction ss as [|s ss IH]; intros st h Hall Hh; simpl.
  - now rewrite app_nil_r.
  - inversion Hall as [|s' ss' Hs Hss]; subst.
    destruct s as [k'|k' m]; simpl in Hs; subst k'; simpl.
    + apply IH; [exact Hss|]. unfold store_setdefault. now rewrite Hh.
    + rewrite (IH _ (h ++ [m]) Hss).
      * now rewrite <- app_assoc.
      * now rewrite store_lookup_append_same, Hh.
Qed.

Lemma update_stmts_on_key k text ai : Forall (on_key k) (update_stmts k text ai).
Proof. repeat constructor. Qed.

(** C10, as the code has it.  However the statements of two
    exchanges of one sender are interleaved, no turn is lost and each
    exchange's user turn comes before its assistant turn: the stored
    sequence is the old one followed by some interleaving of the two
    pairs.  The two exchanges come out one after the other exactly
    when the schedule does not interleave their appends; so they do
    when the two updates run one after the other, in either order. *)
Theorem concurrent_updates_interleave k u1 a1 u2 a2 sched st :
  hashable k = true ->
  interleaving (update_stmts k u1 a1) (update_stmts k u2 a2) sched ->
  (exists merged,
      interleaving [turn "user" u1; turn "assistant" a1]
                   [turn "user" u2; turn "assistant" a2] merged
      /\ store_history k (run_stmts sched st) = store_history k st ++ merged)
  /\ (sched = update_stmts k u1 a1 ++ update_stmts k u2 a2 ->
      store_history k (run_stmts sched st)
      = store_history k st
        ++ [turn "user" u1; turn "assistant" a1;
            turn "user" u2; turn "assistant" a2])
  /\ (sched = update_stmts k u2 a2 ++ update_stmts k u1 a1 ->
      store_history k (run_stmts sched st)
      = store_history k st
        ++ [turn "user" u2; turn "assistant" a2;
            turn "user" u1; turn "assistant" a1])
  /\ (serialized k u1 a1 u2 a2 st (run_stmts sched st) <->
      appended sched = [turn "user" u1; turn "assistant" a1;
                        turn "user" u2; turn "assistant" a2]
      \/ appended sched = [turn "user" u2; turn "assistant" a2;
                           turn "user" u1; turn "assistant" a1]).
Proof.
  intros Hk Hil.
  assert (Hall : Forall (on_key k) sched).
  { eapply interleaving_on_key; eauto using update_stmts_on_key. }
  assert (Hrun : store_history k (run_stmts sched st)
                 = store_history k st ++ appended sched).
  { inversion Hil as [|x l r m Hrest|x l r m Hrest]; subst;
      inversion Hall as [|s ss _ Hss]; subst; simpl;
      unfold store_history at 1;
      rewrite (run_stmts_present k _ _ (store_history k st) Hss
                 (store_lookup_setdefault_same k st Hk));
      reflexivity. }
  split; [|split; [|split]].
  - exists (appended sched). split; [|exact Hrun].
    exact (interleaving_appended _ _ _ Hil).
  - intros ->. rewrite Hrun. reflexivity.
  - intros ->. rewrite Hrun. reflexivity.
  - unfold serialized. rewrite Hrun. split.
    + intros [H|H]; apply app_inv_head in H; [now left|now right].
    + intros [->| ->]; [now left|now right].
Qed.

(** C10 as stated fails: with the second request's first append run
    between the two appends of the first, the stored sequence is
    user, user, assistant, assistant. *)
Lemma concurrent_updates_not_serialized :
  ~ (forall k u1 a1 u2 a2 sched st,
        hashable k = true ->
        interleaving (update_stmts k u1 a1) (update_stmts k u2 a2) sched ->
        serialized k u1 a1 u2 a2 st (run_stmts sched st)).
Proof.
  intros H.
  specialize (H (JStr "42") "hi" "hello" "you there?" "yes" 
                [SetDefault (JStr "42"); Append (JStr "42") (turn "user" "hi");
                 SetDefault (JStr "42");
                 Append (JStr "42") (turn "user" "you there?");
                 Append (JStr "42") (turn "assistant" "hello");
                 Append (JStr "42") (turn "assistant" "yes")]
                [] eq_refl).
  destruct H as [H|H].
  - unfold update_stmts. repeat constructor.
  - vm_compute in H. discriminate.
  - vm_compute in H. discriminate.
Qed.

Lemma concurrent_updates_interleave_witness :
  store_history (JStr "42")
    (run_stmts (update_stmts (JStr "42") "hi" "hello"
                ++ update_stmts (JStr "42") "you there?" "yes") [])
  = [turn "user" "hi"; turn "assistant" "hello";
     turn "user" "you there?"; turn "assistant" "yes"]
  /\ serialized (JStr "42") "hi" "hello" "you there?" "yes" []
       (run_stmts
          [SetDefault (JStr "42"); SetDefault (JStr "42");
           Append (JStr "42") (turn "user" "hi");
           Append (JStr "42") (turn "assistant" "hello");
           Append (JStr "42") (turn "user" "you there?");
           Append (JStr "42") (turn "assistant" "yes")] []).
Proof.
  split.
  - apply (concurrent_updates_interleave (JStr "42") "hi" "hello"
             "you there?" "yes" _ [] eq_refl); [|reflexivity].
    unfold update_stmts. cbn [app]. repeat constructor.
  - apply (concurrent_updates_interleave (JStr "42") "hi" "hello"
             "you there?" "yes" _ [] eq_refl); [|left; reflexivity].
    unfold update_stmts.
    apply il_left, il_right, il_left, il_left, il_right, il_right, il_nil.
Defined.

(** ** More on the model resolver *)

(** X15.  On a listing of well-formed entries the resolver answers,
    for a preference in auto mode (a test that trims and ignores
    case), the first listed id; for any other preference, that
    preference if it is listed as it is written, at any position, and
    the first listed id otherwise.  With an empty listing it answers
    the preference itself. *)
Theorem resolver_on_catalog cfg backend w st ids :
  status_error st = false ->
  backend (calls w) GetModels = Response st (Some (catalog ids)) ->
  fst (get_active_model cfg backend w)
  = Ok (JStr (if auto_mode (LM_STUDIO_MODEL cfg)
              then hd (LM_STUDIO_MODEL cfg) ids
              else if existsb (String.eqb (LM_STUDIO_MODEL cfg)) ids
                   then LM_STUDIO_MODEL cfg
                   else hd (LM_STUDIO_MODEL cfg) ids)).
Proof.
  intros Hst Hresp.
  rewrite get_active_model_run, Hresp, resolved_catalog by exact Hst.
  cbn [fst]. f_equal. unfold choose_model, auto_mode.
  rewrite str_in_map_JStr.
  destruct (_ || _)%bool.
  - now destruct ids.
  - destruct (existsb (String.eqb (LM_STUDIO_MODEL cfg)) ids);
      [reflexivity|now destruct ids].
Qed.

(** ** More on the prompt *)

Lemma last_n_app_recent {A} n (older recent : list A) :
  n <= length recent ->
  Py.last_n n (older ++ recent) = Py.last_n n recent.
Proof.
  intros Hn. unfold Py.last_n. rewrite length_app, skipn_app.
  rewrite skipn_all2 by lia. simpl. f_equal. lia.
Qed.

(** X16.  The prompt of the completions fallback forgets every turn
    before the last eight messages.  The handler passes up to eight
    stored turns and the new user turn, so with eight stored turns
    the oldest one is not in the prompt. *)
Theorem prompt_forgets_older_turns older recent :
  8 <= length recent ->
  _messages_to_prompt (older ++ recent) = _messages_to_prompt recent.
Proof.
  intros Hlen. unfold _messages_to_prompt.
  now rewrite last_n_app_recent.
Qed.

(** ** The allow-list of the environment *)

Lemma has_comma_lstrip s : has_comma s = false -> has_comma (Py.lstrip s) = false.
Proof.
  induction s as [|c r IH]; simpl; trivial.
  intros H. apply orb_false_elim in H as [Hc Hr].
  destruct (Py.is_space c); [auto|]. simpl. now rewrite Hc, Hr.
Qed.

Lemma has_comma_rstrip s : has_comma s = false -> has_comma (Py.rstrip s) = false.
Proof.
  induction s as [|c r IH]; trivial.
  intros H. simpl in H. apply orb_false_elim in H as [Hc Hr].
  rewrite rstrip_cons. specialize (IH Hr).
  destruct (Py.rstrip r) as [|c' r'].
  - destruct (Py.is_space c); trivial. simpl. now rewrite Hc.
  - simpl in *. now rewrite Hc, IH.
Qed.

Lemma split_comma_pieces s : Forall (fun p => has_comma p = false) (split_comma s).
Proof.
  induction s as [|c r IH]; simpl; [repeat constructor|].
  destruct (Ascii.eqb c ",") eqn:Hc; [constructor; trivial|].
  destruct (split_comma r) as [|p ps]; [repeat constructor; simpl; now rewrite Hc|].
  inversion IH; subst. constructor; trivial. simpl. now rewrite Hc.
Qed.

Lemma split_comma_piece p rest :
  has_comma p = false ->
  split_comma (p ++ "," ++ rest) = p :: split_comma rest.
Proof.
  induction p as [|c p IH]; [reflexivity|].
  intros H. simpl in H. apply orb_false_elim in H as [Hc Hp].
  change (String c p ++ "," ++ rest)%string
    with (String c (p ++ "," ++ rest))%string.
  cbn [split_comma]. now rewrite Hc, (IH Hp).
Qed.

Lemma split_comma_single p : has_comma p = false -> split_comma p = [p].
Proof.
  induction p as [|c p IH]; simpl; [reflexivity|].
  intros H. apply orb_false_elim in H as [Hc Hp].
  rewrite Hc. now rewrite (IH Hp).
Qed.

(** X17.  Every id of the parsed allow-list is not empty, is trimmed
    and holds no comma; a variable that is empty or unset gives the
    empty allow-list, under which nobody is rejected; and a
    comma-separated list of clean ids is parsed back to these ids. *)
Theorem allowed_jids_parsing :
  (forall env s, In s (parse_allowed_jids env) -> clean_jid s)
  /\ parse_allowed_jids "" = []
  /\ (forall ids, Forall clean_jid ids ->
                  parse_allowed_jids (Py.join "," ids) = ids).
Proof.
  unfold parse_allowed_jids. split; [|split; [reflexivity|]].
  - intros env s Hin. apply filter_In in Hin as [Hin Hne].
    apply in_map_iff in Hin as (p & <- & Hp).
    pose proof (split_comma_pieces env) as Hall.
    rewrite Forall_forall in Hall.
    repeat split; trivial; [apply strip_idem|].
    unfold Py.strip. apply has_comma_rstrip, has_comma_lstrip. now apply Hall.
  - induction 1 as [|p ids (Hne & Hstrip & Hcomma) Hids IH]; [reflexivity|].
    destruct ids as [|q ids].
    + cbn [Py.join]. rewrite split_comma_single by exact Hcomma.
      cbn [map filter]. now rewrite Hstrip, Hne.
    + change (Py.join "," (p :: q :: ids))
        with (p ++ "," ++ Py.join "," (q :: ids))%string.
      rewrite split_comma_piece by exact Hcomma.
      cbn [map filter]. rewrite Hstrip, Hne. now rewrite IH.
Qed.

(** ** The further properties at concrete inputs *)

Lemma extract_message_text_priority_witness :
  _extract_message_text
    [("message", JStr "b"); ("text", JStr " ");
     ("data", JObj [("text", JStr "c")])]
  = "b".
Proof.
  apply (extract_message_text_priority _ ["text"] "message"
           ["body"; "MESSAGE"; "MESSAGE-TEXT"; "message-text"; "content"]
           "b"); try reflexivity.
  intros k' [<-|[]] (v & Hv & Hne).
  vm_compute in Hv. injection Hv as <-. vm_compute in Hne. discriminate.
Defined.

Lemma form_encoded_body_witness :
  auto_reply open_cfg friendly
    (mkRequest None [("jid", "42"); ("text", "hi")]) fresh
  = auto_reply open_cfg friendly (json_request (JObj hi_payload)) fresh.
Proof.
  refine (proj1 (form_encoded_body open_cfg friendly None
                   [("jid", "42"); ("text", "hi")] fresh _) _).
  - intros j H. discriminate H.
  - discriminate.
Defined.

Lemma malformed_payload_is_silent_witness :
  auto_reply open_cfg friendly
    (json_request (JObj [("jid", JArr [JNum 1]); ("text", JStr "hi")])) fresh
  = (Ok (JObj [("message", JStr "")], 200%Z), fresh).
Proof.
  apply (malformed_payload_is_silent open_cfg friendly).
  intros d H. vm_compute in H. injection H as <-. reflexivity.
Defined.

Lemma silent_reply_keeps_store_witness :
  let after := snd (auto_reply open_cfg mute (json_request (JObj hi_payload))
                      fresh) in
  conversations after = [] /\ length (calls after) = 5.
Proof.
  split; [|reflexivity].
  exact (silent_reply_keeps_store open_cfg mute
           (json_request (JObj hi_payload)) fresh eq_refl).
Defined.

Lemma other_senders_untouched_witness :
  let yo := json_request (JObj [("jid", JStr "7"); ("text", JStr "yo")]) in
  let w7 := snd (auto_reply open_cfg friendly yo fresh) in
  store_history (JStr "7")
    (conversations
       (snd (auto_reply open_cfg friendly (json_request (JObj hi_payload)) w7)))
  = [turn "user" "yo"; turn "assistant" "hello there"].
Proof.
  intros yo w7.
  exact (other_senders_untouched open_cfg friendly (JStr "7")
           (json_request (JObj hi_payload)) w7 eq_refl).
Defined.

Lemma store_is_the_transcript_witness :
  let yo := json_request (JObj [("jid", JStr "7"); ("text", JStr "yo")]) in
  let blank := json_request (JObj [("jid", JStr "42"); ("text", JStr " ")]) in
  let hi := json_request (JObj hi_payload) in
  store_history (JStr "42")
    (conversations (snd (serve open_cfg friendly [hi; blank; yo; hi] fresh)))
  = [turn "user" "hi"; turn "assistant" "hello there";
     turn "user" "hi"; turn "assistant" "hello there"].
Proof.
  intros yo blank hi.
  exact (store_is_the_transcript open_cfg friendly (JStr "42")
           [hi; blank; yo; hi] fresh eq_refl).
Defined.

Lemma store_stays_paired_witness :
  store_paired (conversations (snd (serve open_cfg friendly five_his fresh))).
Proof.
  apply (store_stays_paired open_cfg friendly five_his fresh).
  constructor.
Defined.

Lemma resolver_on_catalog_witness :
  fst (get_active_model (mkConfig " AUTO " []) friendly fresh)
  = Ok (JStr "m1")
  /\ fst (get_active_model (mkConfig "m2" []) friendly fresh) = Ok (JStr "m2")
  /\ fst (get_active_model (mkConfig "M2" []) friendly fresh) = Ok (JStr "m1").
Proof.
  split; [|split].
  - exact (resolver_on_catalog (mkConfig " AUTO " []) friendly fresh 200%Z
             ["m1"; "m2"] eq_refl eq_refl).
  - exact (resolver_on_catalog (mkConfig "m2" []) friendly fresh 200%Z
             ["m1"; "m2"] eq_refl eq_refl).
  - exact (resolver_on_catalog (mkConfig "M2" []) friendly fresh 200%Z
             ["m1"; "m2"] eq_refl eq_refl).
Defined.

Lemma prompt_forgets_older_turns_witness :
  _messages_to_prompt
    (turn "user" "first" :: repeat (turn "assistant" "later") 8)
  = _messages_to_prompt (repeat (turn "assistant" "later") 8).
Proof.
  exact (prompt_forgets_older_turns [turn "user" "first"]
           (repeat (turn "assistant" "later") 8) (le_n 8)).
Defined.

(** The default endpoint gives the documented URL. *)
Example default_url :
  LM_STUDIO_URL (mkEndpoint "192.168.80.1" 1234)
  = "http://192.168.80.1:1234/v1/chat/completions".
Proof. reflexivity. Qed.

(** Pieces that are blank once trimmed are dropped from the
    allow-list. *)
Example allowed_jids_sample :
  parse_allowed_jids " 42@s.whatsapp.net , ,7,," = ["42@s.whatsapp.net"; "7"].
Proof. reflexivity. Qed.
